(** * The LDraw model packer ([ldraw/packLDrawModel.mjs])

    A shallow embedding of the packer and the properties of its
    resolver, line scanner, rewriter, cache and external fallback.

    Modelling conventions.
    - A JavaScript string is a [string]: a sequence of code units below
      256; [toLowerCase] and [trim] are the restrictions of the
      ECMAScript functions to that range.
    - [path.join] and [path.parse] are Node's POSIX versions.
    - The file system and the lookup service are the parameters of the
      development: [readFileSync] and [fetch] are deterministic
      functions of the path, resp. the URL, and [writeFileSync] tells
      whether the one write of a run succeeds or throws.
    - The four module-level variables ([pathMap], [objectsPaths],
      [objectsContents], [unsupportedParts]) form the [state] record,
      threaded through every call, together with a log of the reads and
      lookups performed.
    - [pathMap] is a plain object.  The record holds its own
      properties, every value as the text it has in a string
      concatenation and as a property key; a property read that finds
      no own property goes on to [Object.prototype]
      ([objectPrototype]), and an assignment of a string to the key
      [__proto__] goes to the inherited setter, which ignores it.
    - Recursion through [parseObject] takes fuel; [None] is "out of
      fuel", never a result of the program. *)

From Stdlib Require Import Ascii String List Bool Arith Lia.
From stdpp Require Import base option list gmap strings.

Import ListNotations.
Local Open Scope string_scope.
Local Open Scope list_scope.

(** ** JavaScript string primitives *)

Module JS.

Definition LF : ascii := "010"%char.
Definition CR : ascii := "013"%char.
Definition TAB : ascii := "009"%char.
Definition SPACE : ascii := " "%char.
Definition SLASH : ascii := "/"%char.
Definition BACKSLASH : ascii := "\"%char.
Definition DOT : ascii := "."%char.

(** [c === ' ' || c === '\t'], the test of the scanning loops. *)
Definition isBlank (c : ascii) : bool :=
  Ascii.eqb c SPACE || Ascii.eqb c TAB.

(** White space and line terminators removed by [String.prototype.trim]. *)
Definition isTrimSpace (c : ascii) : bool :=
  let n := nat_of_ascii c in
  ((9 <=? n) && (n <=? 13) || (n =? 32) || (n =? 160))%nat.

(** [\d] *)
Definition isDigit (c : ascii) : bool :=
  let n := nat_of_ascii c in ((48 <=? n) && (n <=? 57))%nat.

(** Line terminators, which [.] does not match. *)
Definition isLineTerminator (c : ascii) : bool :=
  Ascii.eqb c LF || Ascii.eqb c CR.

Definition lowerChar (c : ascii) : ascii :=
  let n := nat_of_ascii c in
  if ((65 <=? n) && (n <=? 90))%nat then ascii_of_nat (n + 32)
  else if ((192 <=? n) && (n <=? 222) && negb (n =? 215))%nat
  then ascii_of_nat (n + 32)
  else c.

Fixpoint mapChars (f : ascii -> ascii) (s : string) : string :=
  match s with
  | EmptyString => EmptyString
  | String c r => String (f c) (mapChars f r)
  end.

Definition toLowerCase (s : string) : string := mapChars lowerChar s.

(** [s.replace(/\\/g, '/')] *)
Definition replaceBackslashes (s : string) : string :=
  mapChars (fun c => if Ascii.eqb c BACKSLASH then SLASH else c) s.

Fixpoint startsWith (s p : string) {struct p} : bool :=
  match p, s with
  | EmptyString, _ => true
  | String a p', String b s' => Ascii.eqb a b && startsWith s' p'
  | String _ _, EmptyString => false
  end.

Definition endsWith (s p : string) : bool :=
  startsWith (String.rev s) (String.rev p).

Fixpoint dropWhile (f : ascii -> bool) (s : string) : string :=
  match s with
  | EmptyString => EmptyString
  | String c r => if f c then dropWhile f r else s
  end.

Fixpoint takeWhile (f : ascii -> bool) (s : string) : string :=
  match s with
  | EmptyString => EmptyString
  | String c r => if f c then String c (takeWhile f r) else EmptyString
  end.

Definition trim (s : string) : string :=
  String.rev (dropWhile isTrimSpace (String.rev (dropWhile isTrimSpace s))).

(** [s.substring(n)] and [s.substring(0, n)] *)
Fixpoint substringFrom (n : nat) (s : string) : string :=
  match n, s with
  | O, _ => s
  | S n', String _ r => substringFrom n' r
  | S _, EmptyString => EmptyString
  end.

Fixpoint substringTo (n : nat) (s : string) : string :=
  match n, s with
  | S n', String c r => String c (substringTo n' r)
  | _, _ => EmptyString
  end.

(** [s.indexOf('\r\n') !== -1] *)
Fixpoint containsCRLF (s : string) : bool :=
  match s with
  | EmptyString => false
  | String c r =>
      match r with
      | String c2 _ => (Ascii.eqb c CR && Ascii.eqb c2 LF) || containsCRLF r
      | EmptyString => false
      end
  end.

(** [s.replace(/\r\n/g, '\n')] *)
Fixpoint replaceCRLF (s : string) : string :=
  match s with
  | EmptyString => EmptyString
  | String c r =>
      match r with
      | String c2 r2 =>
          if Ascii.eqb c CR && Ascii.eqb c2 LF
          then String LF (replaceCRLF r2)
          else String c (replaceCRLF r)
      | EmptyString => String c EmptyString
      end
  end.

(** [s.split(sep)] for a one-character separator *)
Fixpoint split (sep : ascii) (s : string) : list string :=
  match s with
  | EmptyString => [EmptyString]
  | String c r =>
      if Ascii.eqb c sep then EmptyString :: split sep r
      else match split sep r with
           | h :: t => String c h :: t
           | [] => [String c EmptyString]
           end
  end.

(** [s.match(/\d+/)]: the leftmost maximal run of digits, [None] for
    [null]. *)
Fixpoint matchDigits (s : string) : option string :=
  match s with
  | EmptyString => None
  | String c r =>
      if isDigit c then Some (String c (takeWhile isDigit r))
      else matchDigits r
  end.

(** String coercion of the match result in [m + '.dat']. *)
Definition matchToString (m : option string) : string :=
  match m with
  | Some d => d
  | None => "null"
  end.

(** [s.replace(/bpb/g, 'pb')] *)
Fixpoint replaceBpb (s : string) : string :=
  match s with
  | EmptyString => EmptyString
  | String c r =>
      match r with
      | String c2 (String c3 r3) =>
          if Ascii.eqb c "b" && Ascii.eqb c2 "p" && Ascii.eqb c3 "b"
          then String "p" (String "b" (replaceBpb r3))
          else String c (replaceBpb r)
      | _ => String c (replaceBpb r)
      end
  end.

(** [.*\d] matches at the start of [s]: a digit occurs before the first
    line terminator. *)
Fixpoint digitAhead (s : string) : bool :=
  match s with
  | EmptyString => false
  | String c r =>
      if isLineTerminator c then false
      else isDigit c || digitAhead r
  end.

(** [s.replace(/(\d+)(?!.*\d)/, '0$1')]: a ["0"] is put before the
    first run of digits that no digit follows on its line. *)
Fixpoint zeroBeforeLastRun (s : string) : string :=
  match s with
  | EmptyString => EmptyString
  | String c r =>
      if isDigit c && negb (digitAhead (dropWhile isDigit r))
      then String "0" s
      else String c (zeroBeforeLastRun r)
  end.

End JS.

(** ** Node's POSIX [path] module *)

Module Path.

Definition isDots (seg : string) : bool := String.eqb seg "..".

(** [normalizeString]: the segments are pushed on [res] (top first);
    empty and ["."] segments are dropped, [".."] pops a segment or, on
    an empty or dotted stack, is kept when [allowAboveRoot]. *)
Fixpoint normalizeSegments (allowAboveRoot : bool) (segs res : list string)
  : list string :=
  match segs with
  | [] => rev res
  | seg :: rest =>
      if String.eqb seg "" || String.eqb seg "." then
        normalizeSegments allowAboveRoot rest res
      else if isDots seg then
        match res with
        | top :: res' =>
            if isDots top
            then normalizeSegments allowAboveRoot rest (seg :: res)
            else normalizeSegments allowAboveRoot rest res'
        | [] =>
            if allowAboveRoot
            then normalizeSegments allowAboveRoot rest [seg]
            else normalizeSegments allowAboveRoot rest []
        end
      else normalizeSegments allowAboveRoot rest (seg :: res)
  end.

Definition normalize (path : string) : string :=
  match path with
  | EmptyString => "."
  | String c _ =>
      let isAbsolute := Ascii.eqb c JS.SLASH in
      let trailingSeparator := JS.endsWith path "/" in
      let p := String.concat "/"
                 (normalizeSegments (negb isAbsolute) (JS.split JS.SLASH path) []) in
      match p with
      | EmptyString =>
          if isAbsolute then "/" else if trailingSeparator then "./" else "."
      | _ =>
          let p' := if trailingSeparator then p +:+ "/" else p in
          if isAbsolute then "/" +:+ p' else p'
      end
  end.

(** [path.join(...args)] *)
Definition join (args : list string) : string :=
  match List.filter (fun a => negb (String.eqb a "")) args with
  | [] => "."
  | parts => normalize (String.concat "/" parts)
  end.

(** The last component of a path, trailing separators ignored
    ([path.parse(p).base]). *)
Definition basename (p : string) : string :=
  String.rev
    (JS.takeWhile (fun c => negb (Ascii.eqb c JS.SLASH))
       (JS.dropWhile (fun c => Ascii.eqb c JS.SLASH) (String.rev p))).

(** Splits a reversed base at its first dot: (reversed extension without
    the dot, reversed rest), [None] when there is no dot. *)
Fixpoint splitAtDot (r : string) : option (string * string) :=
  match r with
  | EmptyString => None
  | String c r' =>
      if Ascii.eqb c JS.DOT then Some (EmptyString, r')
      else match splitAtDot r' with
           | Some (e, n) => Some (String c e, n)
           | None => None
           end
  end.

(** [path.parse(p).name] *)
Definition parseName (p : string) : string :=
  let b := basename p in
  match splitAtDot (String.rev b) with
  | None => b
  | Some (_, EmptyString) => b
  | Some (_, n) => if String.eqb b ".." then b else String.rev n
  end.

End Path.

Arguments Path.join : simpl never.
Arguments Path.parseName : simpl never.

(** ** The packer *)

Definition NL : string := String JS.LF EmptyString.

(** What the run does to the outside world, in order. *)
Inductive event : Type :=
| Read (path : string)     (* fs.readFileSync(path) *)
| Fetch (url : string).    (* fetch(url) *)

(** The module-level variables of lines 40-43, and the event log. *)
Record state : Type := mkState {
  pathMap : gmap string string;
  objectsPaths : list string;
  objectsContents : list string;
  unsupportedParts : list string;
  log : list event
}.

Definition initialState : state := mkState ∅ [] [] [] [].

(** The answer of the lookup service to one request, as far as
    [fetchLDrawValue] looks at it. *)
Inductive reply : Type :=
| NetworkFault                    (* fetch or response.json() rejects *)
| NoIdentifier                    (* data.results[0].external_ids.LDraw[0] throws *)
| Identifier (v : option string). (* its value; [None] for undefined or null *)

(** Computations over the state; [None] is reserved for running out of
    fuel. *)
Definition M (A : Type) : Type := state -> option (A * state).

Definition ret {A : Type} (a : A) : M A := fun st => Some (a, st).

Definition bind {A B : Type} (m : M A) (k : A -> M B) : M B :=
  fun st => match m st with
            | Some (a, st') => k a st'
            | None => None
            end.

Definition outOfFuel {A : Type} : M A := fun _ => None.

Notation "'do' x <- m ; k" := (bind m (fun x => k))
  (at level 10, x name, m at level 100, k at level 200).
Notation "'do' ' p <- m ; k" := (bind m (fun x => match x with p => k end))
  (at level 10, p pattern, m at level 100, k at level 200).

Definition getState : M state := fun st => Some (st, st).

Definition emit (e : event) : M unit := fun st =>
  Some (tt, mkState (pathMap st) (objectsPaths st) (objectsContents st)
              (unsupportedParts st) (log st ++ [e])).

(** The members that a plain object inherits from [Object.prototype],
    each as the text that Node gives it when it is put into a string:
    the source text of a built-in function, and [[object Object]] for
    the object that the [__proto__] getter returns. *)
Definition objectPrototypeMethods : list string :=
  ["__defineGetter__"; "__defineSetter__"; "hasOwnProperty";
   "__lookupGetter__"; "__lookupSetter__"; "isPrototypeOf";
   "propertyIsEnumerable"; "toString"; "valueOf"; "toLocaleString"].

Definition nativeFunction (name : string) : string :=
  "function " +:+ name +:+ "() { [native code] }".

Definition objectPrototype (key : string) : option string :=
  if String.eqb key "constructor" then Some (nativeFunction "Object")
  else if String.eqb key "__proto__" then Some "[object Object]"
  else if existsb (String.eqb key) objectPrototypeMethods
       then Some (nativeFunction key)
  else None.

(** [pathMap[key]]: an own property, or else an inherited one. *)
Definition getPathMap (st : state) (key : string) : option string :=
  match pathMap st !! key with
  | Some value => Some value
  | None => objectPrototype key
  end.

(** [pathMap[key] = value].  An assignment to the key [__proto__]
    reaches the setter inherited from [Object.prototype], which ignores
    a value that is a string; the program assigns no other value under
    that key. *)
Definition setPathMap (key value : string) : M unit := fun st =>
  if String.eqb key "__proto__" then Some (tt, st)
  else Some (tt, mkState (<[key := value]> (pathMap st)) (objectsPaths st)
                   (objectsContents st) (unsupportedParts st) (log st)).

(** [unsupportedParts.push(partId)] *)
Definition pushUnsupported (partId : string) : M unit := fun st =>
  Some (tt, mkState (pathMap st) (objectsPaths st) (objectsContents st)
              (unsupportedParts st ++ [partId]) (log st)).

(** Lines 316-321. *)
Definition pushObject (objectPath processedObjectContent : string) : M unit :=
  fun st =>
    if existsb (String.eqb objectPath) (objectsPaths st) then Some (tt, st)
    else Some (tt, mkState (pathMap st) (objectsPaths st ++ [objectPath])
                     (objectsContents st ++ [processedObjectContent])
                     (unsupportedParts st) (log st)).

(** Truthiness of a string, and of a property read. *)
Definition truthy (s : string) : bool := negb (String.eqb s "").

Definition truthyOpt (v : option string) : bool :=
  match v with
  | Some s => truthy s
  | None => false
  end.

Definition ldrawPath : string := "./".
Definition materialsFileName : string := "LDConfig.ldr".
Definition url : string :=
  "https://rebrickable.com/api/v3/lego/parts/?bricklink_id=".
Definition validExtensions : list string := [".ldr"; ".dat"; ".mpd"].

(** [validExtensions.some(ext => name.endsWith(ext))] *)
Definition hasValidExtension (name : string) : bool :=
  existsb (JS.endsWith name) validExtensions.

(** Lines 106-114: the prefix set before the first read of a pass. *)
Definition initialPrefix (fileName : string) : string :=
  if JS.startsWith fileName "48/" then "p/"
  else if JS.startsWith fileName "s/" then "parts/"
  else "".

(** Line 199. *)
Definition objectPathOf (prefix fileName : string) : string :=
  JS.replaceBackslashes (JS.trim (Path.join [prefix; fileName])).

(** Lines 176 and 179. *)
Definition fallbackFileName (partId : string) (lDrawId : option string) : string :=
  match lDrawId with
  | Some id => if truthy id then id +:+ ".dat"
               else JS.matchToString (JS.matchDigits partId) +:+ ".dat"
  | None => JS.matchToString (JS.matchDigits partId) +:+ ".dat"
  end.

(** The number of leading characters of [s] that satisfy [f]: how far
    one of the [while] loops over [charIndex] advances. *)
Fixpoint scanWhile (f : ascii -> bool) (s : string) : nat :=
  match s with
  | EmptyString => 0
  | String c r => if f c then S (scanWhile f r) else 0
  end.

(** Lines 271-287, started with [token] iterations left. *)
Fixpoint skipTokens (tokens : nat) (line : string) (charIndex : nat) : nat :=
  match tokens with
  | O => charIndex
  | S t =>
      if Nat.ltb charIndex (String.length line) then
        let charIndex1 :=
          charIndex
          + scanWhile (fun c => negb (JS.isBlank c)) (JS.substringFrom charIndex line) in
        let charIndex2 :=
          charIndex1 + scanWhile JS.isBlank (JS.substringFrom charIndex1 line) in
        skipTokens t line charIndex2
      else charIndex
  end.

(** Lines 224-234. *)
Definition skipLeadingBlanks (line : string) : string :=
  JS.substringFrom (scanWhile JS.isBlank line) line.

(** The reference name of a subpart line and the index it starts at
    (lines 268-289). *)
Definition subobjectOf (line : string) : nat * string :=
  let charIndex := skipTokens 13 line 2 in
  (charIndex, JS.replaceBackslashes (JS.trim (JS.substringFrom charIndex line))).

(** ** Vocabulary of the properties *)

(** The candidate locations of one pass, in the order of the nested
    [try] blocks: the prefix recorded on success and the path read. *)
Definition candidates (fileName : string) : list (string * string) :=
  [ (initialPrefix fileName, Path.join [ldrawPath; fileName]);
    ("parts/", Path.join [ldrawPath; "parts/"; fileName]);
    ("p/", Path.join [ldrawPath; "p/"; fileName]);
    ("models/", Path.join [ldrawPath; "models/"; fileName]) ].

(** No candidate of either pass can be read. *)
Definition locallyMissing (readFileSync : string -> option string)
    (fileName : string) : Prop :=
  forall c, In c (candidates fileName ++ candidates (JS.toLowerCase fileName)) ->
            readFileSync (snd c) = None.

(** The reads of the two exhausted passes. *)
Definition exhaustedReads (fileName : string) : list event :=
  map (fun c => Read (snd c))
    (candidates fileName ++ candidates (JS.toLowerCase fileName)).

Definition withLog (st : state) (events : list event) : state :=
  mkState (pathMap st) (objectsPaths st) (objectsContents st)
    (unsupportedParts st) (log st ++ events).

Definition withUnsupported (st : state) (partId : string) : state :=
  mkState (pathMap st) (objectsPaths st) (objectsContents st)
    (unsupportedParts st ++ [partId]) (log st).

Definition withPathMap (st : state) (key value : string) : state :=
  mkState (<[key := value]> (pathMap st)) (objectsPaths st)
    (objectsContents st) (unsupportedParts st) (log st).

(** The state after the assignment [pathMap[key] = value]. *)
Definition assigned (st : state) (key value : string) : state :=
  if String.eqb key "__proto__" then st else withPathMap st key value.

Fixpoint allChars (f : ascii -> bool) (s : string) : bool :=
  match s with
  | EmptyString => true
  | String c r => f c && allChars f r
  end.

Definition noDigit (s : string) : bool :=
  allChars (fun c => negb (JS.isDigit c)) s.

Definition noBlank (s : string) : bool :=
  allChars (fun c => negb (JS.isBlank c)) s.


(** The text of a sequence of fields, each followed by its blanks. *)
Fixpoint fieldsText (fields : list (string * string)) : string :=
  match fields with
  | [] => ""
  | (field, gap) :: rest => field +:+ gap +:+ fieldsText rest
  end.

Definition startsBlank (s : string) : bool :=
  match s with
  | String c _ => JS.isBlank c
  | EmptyString => false
  end.

(** The fields of a subpart line, followed by [rest]: every field is a
    run of characters other than space and tab, and the gap after it a
    non-empty run of spaces and tabs that ends at another character or
    at the end of the line. *)
Fixpoint fieldsOK (fields : list (string * string)) (rest : string) : bool :=
  match fields with
  | [] => true
  | (field, gap) :: more =>
      noBlank field && truthy gap && allChars JS.isBlank gap
      && negb (startsBlank (fieldsText more +:+ rest))
      && fieldsOK more rest
  end.

(** The result [(body, st)] of a rewriting with [header] put before the
    body. *)
Definition prepend (header : string) (r : option (string * state))
  : option (string * state) :=
  match r with
  | Some (body, st) => Some (header +:+ body, st)
  | None => None
  end.

(** A line that is neither a file-boundary directive nor a subpart
    reference once its leading blanks are removed. *)
Definition isPlain (rawLine : string) : bool :=
  negb (JS.startsWith (skipLeadingBlanks rawLine) "0 FILE ")
  && negb (JS.startsWith (skipLeadingBlanks rawLine) "1 ").

(** The two sequences of the output: no path twice, one body per path. *)
Definition outputsConsistent (st : state) : Prop :=
  NoDup (objectsPaths st) /\
  length (objectsPaths st) = length (objectsContents st).

(** What [Path.normalize] returns for a relative path with the
    normalised segments [segs]. *)
Definition relativeResult (segs : list string) (trailingSeparator : bool) : string :=
  match String.concat "/" segs with
  | "" => if trailingSeparator then "./" else "."
  | String c r => if trailingSeparator then String c r +:+ "/" else String c r
  end.

(** A reply from which [fetchLDrawValue] gets no identifier it can use. *)
Definition unusable (r : reply) : bool :=
  match r with
  | Identifier (Some id) => negb (truthy id)
  | _ => true
  end.

(** The path cache answers for [name]. *)
Definition cacheHit (st : state) (name : string) : bool :=
  truthyOpt (getPathMap st name).

(** [st'] knows every name and holds every path that [st] does. *)
Definition grows (st st' : state) : Prop :=
  (forall name, truthy name = true ->
                cacheHit st name = true -> cacheHit st' name = true)
  /\ (forall p, In p (objectsPaths st) -> In p (objectsPaths st')).

(** The output sequences of [st'] are those of [st] with new entries at
    the end. *)
Definition appendsTo (st st' : state) : Prop :=
  exists newPaths newContents,
    objectsPaths st' = objectsPaths st ++ newPaths /\
    objectsContents st' = objectsContents st ++ newContents /\
    length newPaths = length newContents.

Definition sameOutputs (st st' : state) : Prop :=
  objectsPaths st' = objectsPaths st /\
  objectsContents st' = objectsContents st.

(** What every call does to the cache and the output sequences. *)
Definition advances (st st' : state) : Prop :=
  grows st st' /\ appendsTo st st' /\
  (outputsConsistent st -> outputsConsistent st').

(** [st'] is [st] but for the log and the unsupported parts. *)
Definition framed (st st' : state) : Prop :=
  pathMap st' = pathMap st /\ sameOutputs st st'.

(** How often the log holds a read of [path]. *)
Definition readsOf (path : string) (events : list event) : nat :=
  length (List.filter
            (fun e => match e with
                      | Read p => String.eqb p path
                      | Fetch _ => false
                      end) events).

(** The two queries of [fetchLDrawValue] for a part. *)
Definition firstQuery (partId : string) : string :=
  url +:+ JS.replaceBpb partId.

Definition secondQuery (partId : string) : string :=
  url +:+ JS.zeroBeforeLastRun (JS.replaceBpb partId).

(** How often the log holds a lookup. *)
Definition fetchesOf (events : list event) : nat :=
  length (List.filter
            (fun e => match e with
                      | Fetch _ => true
                      | Read _ => false
                      end) events).

(** The value that [fetchLDrawValue] returns for a reply it accepts. *)
Definition identifierOf (r : reply) : option string :=
  match r with
  | Identifier v => v
  | _ => None
  end.

Definition isMiss (r : reply) : bool :=
  match r with
  | NoIdentifier => true
  | _ => false
  end.

(** The texts of a list, one after the other. *)
Fixpoint joinAll (texts : list string) : string :=
  match texts with
  | [] => ""
  | t :: rest => t +:+ joinAll rest
  end.

(** Every cache entry maps a name to itself. *)
Definition identityMap (st : state) : Prop :=
  forall key value, pathMap st !! key = Some value -> value = key.

(** A body that starts with the boundary line of [path]. *)
Definition headed (path body : string) : Prop :=
  exists rest, body = "0 FILE " +:+ path +:+ NL +:+ rest.

Definition noBackslash (s : string) : bool :=
  allChars (fun c => negb (Ascii.eqb c JS.BACKSLASH)) s.

(** The state after [objectsPaths.push] and [objectsContents.push]. *)
Definition withObject (st : state) (path body : string) : state :=
  mkState (pathMap st) (objectsPaths st ++ [path])
    (objectsContents st ++ [body]) (unsupportedParts st) (log st).

(** Every embedded body starts with the boundary line of its path. *)
Definition headedOutputs (st : state) : Prop :=
  Forall2 headed (objectsPaths st) (objectsContents st).

(** The rewritten body of a document all of whose lines are plain. *)
Definition plainBody (isRoot : bool) (objectPath content : string) : string :=
  (if isRoot then "" else "0 FILE " +:+ objectPath +:+ NL)
  +:+ joinAll (map (fun l => skipLeadingBlanks l +:+ NL)
                 (JS.split JS.LF (JS.replaceCRLF content))).

(** The state after lines 316-321. *)
Definition embedded (st : state) (objectPath body : string) : state :=
  if existsb (String.eqb objectPath) (objectsPaths st) then st
  else withObject st objectPath body.

(** The reads of a pass that ends with its candidate [i]. *)
Definition readsUpTo (fileName : string) (i : nat) : list event :=
  map (fun c => Read (snd c)) (take (S i) (candidates fileName)).

(** Candidate [i] of the first pass is the first that can be read, and
    what it holds is a non-empty document of plain lines. *)
Definition servesPlain (readFileSync : string -> option string)
    (fileName : string) (i : nat) (prefix content : string) : Prop :=
  exists path,
    candidates fileName !! i = Some (prefix, path)
    /\ readFileSync path = Some content
    /\ (forall j c, j < i -> candidates fileName !! j = Some c ->
                    readFileSync (snd c) = None)
    /\ truthy content = true
    /\ forallb isPlain (JS.split JS.LF (JS.replaceCRLF content)) = true.


(** ** Fixtures *)

Module Fixture.

(** A subpart line with the 13 numeric fields of an identity placement. *)
Definition refLine (name : string) : string :=
  "1 16 0 0 0 1 0 0 0 1 0 0 0 1 " +:+ name.

(** A library with a model of two submodels that share one brick. *)
Definition library (path : string) : option string :=
  if String.eqb path "LDConfig.ldr" then Some "0 colours"
  else if String.eqb path "models/car.ldr" then
    Some ("0 FILE car.ldr" +:+ NL +:+ refLine "a.ldr" +:+ NL
            +:+ "  0 hello" +:+ NL +:+ "1 16 0 0 0" +:+ NL +:+ refLine "b.ldr")
  else if String.eqb path "models/a.ldr" then Some (refLine "3001.dat")
  else if String.eqb path "models/b.ldr" then Some (refLine "3001.dat")
  else if String.eqb path "parts/3001.dat" then Some "0 brick"
  else if String.eqb path "models/3001.dat" then Some "0 copy"
  else if String.eqb path "48/1-4cyli.dat" then Some "0 cylinder"
  else None.

(** A directory that holds the materials file only. *)
Definition onlyMaterials (path : string) : option string :=
  if String.eqb path "LDConfig.ldr" then Some "0 colours" else None.

(** A service that knows no part. *)
Definition noService (_ : string) : reply := NoIdentifier.

Definition resolveNothing (_ : string) : M string := outOfFuel.

(** A resolver that finds every part under [parts/]. *)
Definition resolveInParts (name : string) : M string := ret ("parts/" +:+ name).

(** The directory [models/] exists and can be written to; nothing else
    can. *)
Definition writeInModels (outPath _ : string) : bool :=
  JS.startsWith outPath "models/".

(** The 13 fields of [refLine] with the gaps after them. *)
Definition refFields : list (string * string) :=
  [("16", " "); ("0", " "); ("0", " "); ("0", " "); ("1", " "); ("0", " ");
   ("0", " "); ("0", " "); ("1", " "); ("0", " "); ("0", " "); ("0", " ");
   ("1", " ")].

End Fixture.

(** ** More fixtures *)

Module Sample.

(** A service that knows one printed part under its standardized
    query, one under the query with the zero put in, fails on a third
    and answers an empty list for a fourth. *)
Definition service (u : string) : reply :=
  if String.eqb u (url +:+ "3001pb01") then Identifier (Some "3001p01")
  else if String.eqb u (url +:+ "973pb0012") then Identifier (Some "973p12")
  else if String.eqb u (url +:+ "4073") then NetworkFault
  else if String.eqb u (url +:+ "6141") then Identifier None
  else NoIdentifier.

(** A library with an empty part file, a model that refers to a path in
    its resolved spelling, and a model with an embedded file. *)
Definition library (path : string) : option string :=
  if String.eqb path "LDConfig.ldr" then Some "0 colours"
  else if String.eqb path "parts/3001.dat" then Some "0 brick"
  else if String.eqb path "parts/3001p01.dat" then Some "0 printed brick"
  else if String.eqb path "parts/empty.dat" then Some ""
  else if String.eqb path "p/stud.dat" then
    Some ("0 Stud" +:+ String JS.CR NL +:+ "  4 16 0 0 0" +:+ String JS.CR NL)
  else if String.eqb path "models/twice.ldr" then
    Some (Fixture.refLine "3001.dat" +:+ NL +:+ Fixture.refLine "parts/3001.dat")
  else None.

End Sample.

Module Shelf.

(** A library in which one brick lies in the library directory itself,
    under [parts/] and under [models/]; two primitives lie under [48/],
    one of them an empty file, with other files at the paths [p/48/] of
    the same names; and there is a part [null.dat]. *)
Definition library (path : string) : option string :=
  if String.eqb path "LDConfig.ldr" then Some "0 colours"
  else if String.eqb path "3001.dat" then Some "0 stray"
  else if String.eqb path "parts/3001.dat" then Some "0 brick"
  else if String.eqb path "models/3001.dat" then Some "0 copy"
  else if String.eqb path "48/x.dat" then Some "0 fine"
  else if String.eqb path "p/48/x.dat" then Some (Fixture.refLine "y.dat")
  else if String.eqb path "parts/y.dat" then Some "0 y"
  else if String.eqb path "48/e.dat" then Some ""
  else if String.eqb path "p/48/e.dat" then Some "0 e"
  else if String.eqb path "parts/null.dat" then Some "0 nothing"
  else None.

(** A model that refers to a part named [constructor] and to one named
    [__PROTO__], neither of which is in the library. *)
Definition inherited (path : string) : option string :=
  if String.eqb path "LDConfig.ldr" then Some "0 colours"
  else if String.eqb path "models/odd.ldr" then
    Some (Fixture.refLine "constructor" +:+ NL +:+ Fixture.refLine "__PROTO__")
  else None.

End Shelf.

(** ** The program *)

Section Packer.

(** The file system: the content of the file at a path, [None] when
    reading throws. *)
Variable readFileSync : string -> option string.

(** The lookup service. *)
Variable fetch : string -> reply.

(** [fs.writeFileSync(outPath, packedContent)]: [true] when the file is
    written, [false] when the call throws. *)
Variable writeFileSync : string -> string -> bool.

Definition readFile (path : string) : M (option string) :=
  do _ <- emit (Read path);
  ret (readFileSync path).

Definition fetchJSON (u : string) : M reply :=
  do _ <- emit (Fetch u);
  ret (fetch u).

(** Lines 328-371. *)
Definition fetchLDrawValue (partId : string) : M (option string) :=
  let stdId1 := JS.replaceBpb partId in
  let stdId2 := JS.zeroBeforeLastRun stdId1 in
  do r1 <- fetchJSON (url +:+ stdId1);
  match r1 with
  | NetworkFault => ret None
  | Identifier v => ret v
  | NoIdentifier =>
      do r2 <- fetchJSON (url +:+ stdId2);
      match r2 with
      | NetworkFault => ret None
      | Identifier v => ret v
      | NoIdentifier =>
          do _ <- pushUnsupported partId;
          ret None
      end
  end.

(** Lines 116-157, one pass of the search: the nested [try]/[catch]
    blocks.  The result is the value of [prefix] when the pass ends and
    the content read, if any. *)
Definition tryRead (fileName : string) : M (string * option string) :=
  do c0 <- readFile (Path.join [ldrawPath; fileName]);
  match c0 with
  | Some content => ret (initialPrefix fileName, Some content)
  | None =>
      do c1 <- readFile (Path.join [ldrawPath; "parts/"; fileName]);
      match c1 with
      | Some content => ret ("parts/", Some content)
      | None =>
          do c2 <- readFile (Path.join [ldrawPath; "p/"; fileName]);
          match c2 with
          | Some content => ret ("p/", Some content)
          | None =>
              do c3 <- readFile (Path.join [ldrawPath; "models/"; fileName]);
              match c3 with
              | Some content => ret ("models/", Some content)
              | None => ret ("", None)
              end
          end
      end
  end.

(** How the loop of lines 96-197 ends. *)
Inductive searchResult : Type :=
| Found (prefix fileName objectContent : string)  (* left by a [break] *)
| NotFound (fileName : string)                    (* both passes exhausted *)
| External.                                       (* the branch of lines 162-187 *)

Definition search (originalFileName : string) (isRoot : bool) : M searchResult :=
  do '(prefix0, content0) <- tryRead originalFileName;
  match content0 with
  | Some content => ret (Found prefix0 originalFileName content)
  | None =>
      let fileName := JS.toLowerCase originalFileName in
      do '(prefix1, content1) <- tryRead fileName;
      match content1 with
      | Some content => ret (Found prefix1 fileName content)
      | None =>
          if negb isRoot && hasValidExtension originalFileName
          then ret External
          else ret (NotFound fileName)
      end
  end.

(** Lines 237-263: a file-boundary line, other than the first line,
    enters the path cache under its own text. *)
Definition noteFileDirective (line : string) : M unit :=
  let subobjectFileName := JS.replaceBackslashes (JS.trim (JS.substringFrom 0 line)) in
  if truthy subobjectFileName then
    do st <- getState;
    if truthyOpt (getPathMap st subobjectFileName) then ret tt
    else setPathMap subobjectFileName subobjectFileName
  else ret tt.

(** Lines 293-300: the path cache is asked first; [resolve] stands for
    the recursive call [parseObject( subobjectFileName )]. *)
Definition cachedOrResolve (resolve : string -> M string)
    (subobjectFileName : string) : M string :=
  do st <- getState;
  match getPathMap st subobjectFileName with
  | Some cached => if truthy cached then ret cached
                   else resolve subobjectFileName
  | None => resolve subobjectFileName
  end.

(** Lines 265-306: a subpart line. *)
Definition rewriteSubobject (resolve : string -> M string)
    (line processedObjectContent : string) : M string :=
  let '(charIndex, subobjectFileName) := subobjectOf line in
  if truthy subobjectFileName then
    do subobjectPath <- cachedOrResolve resolve subobjectFileName;
    do _ <- setPathMap subobjectPath subobjectPath;
    ret (processedObjectContent +:+ JS.substringTo charIndex line
           +:+ subobjectPath +:+ NL)
  else ret processedObjectContent.

(** Lines 221-312: one iteration of the loop over the lines. *)
Definition processLine (resolve : string -> M string) (i : nat)
    (rawLine processedObjectContent : string) : M string :=
  let line := skipLeadingBlanks rawLine in
  if JS.startsWith line "0 FILE " && (i =? 0)%nat then
    ret processedObjectContent
  else
    do _ <- (if JS.startsWith line "0 FILE " then noteFileDirective line
             else ret tt);
    if JS.startsWith line "1 " then
      rewriteSubobject resolve line processedObjectContent
    else ret (processedObjectContent +:+ line +:+ NL).

(** Lines 219-314. *)
Fixpoint processLines (resolve : string -> M string) (lines : list string)
    (i : nat) (processedObjectContent : string) : M string :=
  match lines with
  | [] => ret processedObjectContent
  | rawLine :: rest =>
      do processed <- processLine resolve i rawLine processedObjectContent;
      processLines resolve rest (S i) processed
  end.

(** Lines 208-314: the rewritten body of a document that was read. *)
Definition rewriteBody (resolve : string -> M string) (isRoot : bool)
    (objectPath objectContent : string) : M string :=
  let objectContent :=
    if JS.containsCRLF objectContent then JS.replaceCRLF objectContent
    else objectContent in
  let processedObjectContent :=
    if isRoot then "" else "0 FILE " +:+ objectPath +:+ NL in
  processLines resolve (JS.split JS.LF objectContent) 0 processedObjectContent.

(** Lines 199-323: what is done with the outcome of the search when
    the loop was left with a prefix, a file name and, possibly, a
    content ([None] for [null]). *)
Definition embedObject (resolve : string -> M string) (isRoot : bool)
    (prefix fileName : string) (objectContent : option string) : M string :=
  let objectPath := objectPathOf prefix fileName in
  if truthyOpt objectContent then
    do processed <-
      rewriteBody resolve isRoot objectPath (default "" objectContent);
    do _ <- pushObject objectPath processed;
    ret objectPath
  else ret objectPath.

(** Lines 86-325.  Every nested call takes one unit of fuel. *)
Fixpoint parseObject (fuel : nat) (fileName : string) (isRoot : bool)
  : M string :=
  match fuel with
  | O => outOfFuel
  | S fuel' =>
      let resolve := fun name => parseObject fuel' name false in
      do found <- search fileName isRoot;
      match found with
      | External =>
          let partId := Path.parseName fileName in
          do lDrawId <- fetchLDrawValue partId;
          resolve (fallbackFileName partId lDrawId)
      | NotFound fileName' => embedObject resolve isRoot "" fileName' None
      | Found prefix fileName' objectContent =>
          embedObject resolve isRoot prefix fileName' (Some objectContent)
      end
  end.

(** How a run ends. *)
Inductive outcome : Type :=
| Rejected                                   (* an error reaches the [catch] of line 45 *)
| Written (outPath packedContent : string).  (* the file was written, line 79 *)

(** Lines 68-72, with [n] indices left to visit. *)
Fixpoint appendContents (n : nat) (contents : list string) (packedContent : string)
  : string :=
  match n with
  | O => packedContent
  | S i => appendContents i contents (packedContent +:+ nth i contents "undefined")
  end.

(** Lines 55-82. *)
Definition packLDrawModel (fuel : nat) (fileName : string) : M outcome :=
  do materials <- readFile (Path.join [ldrawPath; materialsFileName]);
  match materials with
  | None => ret Rejected
  | Some materialsContent =>
      do _ <- parseObject fuel fileName true;
      do st <- getState;
      let packedContent :=
        appendContents (length (objectsPaths st)) (objectsContents st)
          (materialsContent +:+ NL) +:+ NL in
      let outPath := fileName +:+ "_Packed.mpd" in
      if writeFileSync outPath packedContent
      then ret (Written outPath packedContent)
      else ret Rejected
  end.

(** *** Strings *)

Lemma app_String c s t : String c s +:+ t = String c (s +:+ t).
Proof. reflexivity. Qed.

Lemma app_empty_l s : "" +:+ s = s.
Proof. reflexivity. Qed.

Lemma app_empty_r s : s +:+ "" = s.
Proof. induction s as [|c s IH]; [done|]. by rewrite app_String, IH. Qed.

Lemma app_assoc_s s t u : (s +:+ t) +:+ u = s +:+ (t +:+ u).
Proof. induction s as [|c s IH]; [done|]. by rewrite !app_String, IH. Qed.

Lemma length_app_s s t :
  String.length (s +:+ t) = String.length s + String.length t.
Proof. induction s as [|c s IH]; [done|]. rewrite app_String. simpl. by rewrite IH. Qed.

Lemma split_nonempty sep s : JS.split sep s <> [].
Proof.
  destruct s as [|c s]; simpl; [done|].
  destruct (Ascii.eqb c sep); [done|]. by destruct (JS.split sep s).
Qed.

Lemma split_app sep s t :
  JS.split sep (s +:+ String sep t) = JS.split sep s ++ JS.split sep t.
Proof.
  induction s as [|c s IH].
  - rewrite app_empty_l. simpl. by rewrite Ascii.eqb_refl.
  - rewrite app_String. simpl. rewrite IH.
    destruct (Ascii.eqb c sep); [done|].
    pose proof (split_nonempty sep s). by destruct (JS.split sep s).
Qed.

Lemma rev_app_spec s : forall acc,
  String.rev_app s acc = String.rev s +:+ acc.
Proof.
  unfold String.rev. induction s as [|c s IH]; intros acc; simpl; [done|].
  rewrite (IH (String c acc)), (IH (String c "")).
  by rewrite app_assoc_s.
Qed.

Lemma rev_String c s : String.rev (String c s) = String.rev s +:+ String c "".
Proof. unfold String.rev at 1. simpl. apply rev_app_spec. Qed.

Lemma rev_app_s s t : String.rev (s +:+ t) = String.rev t +:+ String.rev s.
Proof.
  induction s as [|c s IH].
  - by rewrite app_empty_l, app_empty_r.
  - by rewrite app_String, !rev_String, IH, app_assoc_s.
Qed.

Lemma endsWith_app s c t p :
  JS.endsWith (s +:+ String c t) (String p "")
  = JS.endsWith (String c t) (String p "").
Proof.
  unfold JS.endsWith. rewrite rev_app_s.
  change (String.rev (String p "")) with (String p "").
  rewrite (rev_String c t).
  destruct (String.rev t) as [|d r];
    rewrite ?app_empty_l, ?app_String; reflexivity.
Qed.

(** *** Paths *)

(** Two runs of [normalizeSegments] over the same segments, the first
    from a stack that holds one more segment [q] at its bottom: the
    results differ by [q] in front, or by a [".."] once [q] was popped. *)
Lemma normalizeSegments_dotted segs : forall u,
  ".." :: Path.normalizeSegments true segs u
  = Path.normalizeSegments true segs (u ++ [".."]).
Proof.
  induction segs as [|seg rest IH]; intros u; simpl.
  - by rewrite rev_app_distr.
  - destruct (String.eqb seg "" || String.eqb seg "."); [apply IH|].
    destruct (Path.isDots seg) eqn:Hseg; [|apply (IH (seg :: u))].
    destruct u as [|top u']; simpl.
    + apply String.eqb_eq in Hseg as ->. simpl. apply (IH [".."]).
    + destruct (Path.isDots top); [apply (IH (seg :: top :: u'))|apply IH].
Qed.

Lemma normalizeSegments_shifted q segs : forall t,
  Path.isDots q = false ->
  Forall (fun s => Path.isDots s = false) t ->
  Path.normalizeSegments true segs (t ++ [q])
    = q :: Path.normalizeSegments true segs t
  \/ ".." :: Path.normalizeSegments true segs (t ++ [q])
    = Path.normalizeSegments true segs t.
Proof.
  induction segs as [|seg rest IH]; intros t Hq Ht; simpl.
  - left. by rewrite rev_app_distr.
  - destruct (String.eqb seg "" || String.eqb seg "."); [by apply IH|].
    destruct (Path.isDots seg) eqn:Hseg.
    + destruct t as [|top t']; simpl.
      * rewrite Hq. right. apply String.eqb_eq in Hseg as ->.
        apply (normalizeSegments_dotted rest []).
      * inversion Ht as [|? ? Htop Ht']; subst. rewrite Htop. by apply IH.
    + apply (IH (seg :: t)); [done|]. by constructor.
Qed.

Lemma relativeResult_length segs ts :
  String.length (relativeResult segs ts)
  = Nat.max 1 (String.length (String.concat "/" segs))
    + (if ts then 1 else 0).
Proof.
  unfold relativeResult. destruct (String.concat "/" segs) as [|c r].
  - by destruct ts.
  - destruct ts; [rewrite length_app_s|]; simpl; lia.
Qed.

Lemma relativeResult_cons_differs q segs ts :
  q <> "" -> q <> "." ->
  relativeResult (q :: segs) ts <> relativeResult segs ts.
Proof.
  intros Hne Hdot Heq.
  destruct segs as [|x xs].
  - unfold relativeResult in Heq. simpl in Heq.
    destruct q as [|c [|c' q']]; [done| |].
    + destruct ts; rewrite ?app_String in Heq; by simplify_eq.
    + destruct ts; rewrite ?app_String in Heq; simplify_eq.
      by destruct q'.
  - apply (f_equal String.length) in Heq.
    rewrite !relativeResult_length in Heq.
    change (String.concat "/" (q :: x :: xs))
      with (q +:+ "/" +:+ String.concat "/" (x :: xs)) in Heq.
    rewrite !length_app_s in Heq. simpl in Heq.
    destruct q; [done|]. simpl in Heq. lia.
Qed.

Lemma normalize_library x :
  x <> "" ->
  Path.normalize ("./" +:+ String "/" x)
  = relativeResult (Path.normalizeSegments true (JS.split JS.SLASH x) [])
      (JS.endsWith x "/").
Proof.
  intros Hx. destruct x as [|c t]; [done|].
  change ("./" +:+ String "/" (String c t))
    with (String "." (String "/" (String "/" (String c t)))).
  assert (Hends : JS.endsWith (String "." (String "/" (String "/" (String c t)))) "/"
                  = JS.endsWith (String c t) "/")
    by apply (endsWith_app ".//" c t "/").
  assert (Hsplit : JS.split JS.SLASH (String "." (String "/" (String "/" (String c t))))
                   = "." :: "" :: JS.split JS.SLASH (String c t))
    by reflexivity.
  assert (Hsegs : forall l, Path.normalizeSegments (negb (Ascii.eqb "." JS.SLASH))
                              ("." :: "" :: l) []
                            = Path.normalizeSegments true l [])
    by reflexivity.
  unfold Path.normalize, relativeResult.
  rewrite Hends, Hsplit, Hsegs.
  change (Ascii.eqb "." JS.SLASH) with false. cbv iota.
  by destruct (String.concat _ _), (JS.endsWith _ _).
Qed.

Lemma join_library fileName :
  fileName <> "" ->
  Path.join [ldrawPath; fileName] = Path.normalize ("./" +:+ String "/" fileName).
Proof.
  intros H. apply String.eqb_neq in H.
  unfold Path.join. simpl. by rewrite H.
Qed.

Lemma join_library_directory d fileName :
  d <> "" -> fileName <> "" ->
  Path.join [ldrawPath; d; fileName]
  = Path.normalize ("./" +:+ String "/" (d +:+ String "/" fileName)).
Proof.
  intros Hd H. apply String.eqb_neq in H, Hd.
  unfold Path.join. simpl. by rewrite H, Hd.
Qed.

Lemma normalize_relative c t :
  Ascii.eqb c JS.SLASH = false ->
  Path.normalize (String c t)
  = relativeResult (Path.normalizeSegments true (JS.split JS.SLASH (String c t)) [])
      (JS.endsWith (String c t) "/").
Proof.
  intros Hc. unfold Path.normalize, relativeResult. rewrite Hc.
  cbv iota. simpl negb.
  by destruct (String.concat _ _), (JS.endsWith _ _).
Qed.

(** The library path in front changes nothing in what [Path.join] makes
    of a relative directory and a file name. *)
Lemma join_library_prefixed c d fileName :
  Ascii.eqb c JS.SLASH = false ->
  fileName <> "" ->
  Path.join [ldrawPath; String c d; fileName] = Path.join [String c d; fileName].
Proof.
  intros Hc Hfile.
  rewrite join_library_directory by done.
  rewrite normalize_library by done.
  apply String.eqb_neq in Hfile.
  unfold Path.join. simpl List.filter. rewrite Hfile. simpl negb. cbv iota.
  change (String.concat "/" [String c d; fileName])
    with (String c d +:+ String "/" fileName).
  rewrite app_String. by rewrite normalize_relative.
Qed.

(** [Path.join] of the library path, a directory and a file name never
    is the path read without the directory. *)
Lemma join_directory_differs q fileName :
  JS.split JS.SLASH q = [q] ->
  q <> "" -> q <> "." -> Path.isDots q = false ->
  fileName <> "" ->
  Path.join [ldrawPath; q +:+ "/"; fileName] <> Path.join [ldrawPath; fileName].
Proof.
  intros Hsplit Hne Hdot Hdots Hfile.
  assert (Hqe : String.eqb q "" = false) by by apply String.eqb_neq.
  assert (Hqd : String.eqb q "." = false) by by apply String.eqb_neq.
  rewrite join_library, join_library_directory by (done || by destruct q).
  rewrite !normalize_library by (done || by destruct q).
  rewrite app_assoc_s.
  change ("/" +:+ String "/" fileName)
    with (String JS.SLASH ("" +:+ String JS.SLASH fileName)).
  rewrite !split_app, Hsplit.
  destruct fileName as [|c f] eqn:Hf; [done|].
  rewrite (endsWith_app q).
  change (String JS.SLASH ("" +:+ String JS.SLASH (String c f)))
    with ("//" +:+ String c f) at 1.
  rewrite (endsWith_app "//" c f). rewrite <- Hf. clear Hf.
  change (JS.split JS.SLASH "") with [""].
  cbn [app Path.normalizeSegments]. rewrite Hqe, Hqd, Hdots.
  cbn [orb String.eqb].
  destruct (normalizeSegments_shifted q (JS.split JS.SLASH fileName) []
              Hdots ltac:(constructor)) as [E|E];
    change ([] ++ [q]) with [q] in E.
  - rewrite E. by apply relativeResult_cons_differs.
  - rewrite <- E. intros Heq. symmetry in Heq. revert Heq.
    by apply relativeResult_cons_differs.
Qed.

(** *** The monad and the log *)

Lemma withLog_withLog st e1 e2 :
  withLog (withLog st e1) e2 = withLog st (e1 ++ e2).
Proof. unfold withLog; simpl; by rewrite app_assoc. Qed.

Lemma bind_readFile {B} path (k : option string -> M B) st :
  bind (readFile path) k st = k (readFileSync path) (withLog st [Read path]).
Proof. reflexivity. Qed.

(** *** The search *)

(** One pass, read as a walk over the table of candidates. *)
Lemma tryRead_first_success fileName st i prefix path content :
  candidates fileName !! i = Some (prefix, path) ->
  readFileSync path = Some content ->
  (forall j c, j < i -> candidates fileName !! j = Some c ->
               readFileSync (snd c) = None) ->
  tryRead fileName st
  = Some ((prefix, Some content),
          withLog st (map (fun c => Read (snd c))
                        (take (S i) (candidates fileName)))).
Proof.
  intros Hi Hread Hbefore.
  assert (Hearlier : forall j p q, candidates fileName !! j = Some (p, q) ->
                                   j < i -> readFileSync q = None).
  { intros j p q Hj Hlt. apply (Hbefore j (p, q) Hlt Hj). }
  unfold tryRead.
  destruct i as [|[|[|[|i]]]]; simpl in Hi; simplify_eq;
    repeat (rewrite bind_readFile;
            first [ rewrite Hread
                  | rewrite (Hearlier 0 _ _ eq_refl ltac:(lia))
                  | rewrite (Hearlier 1 _ _ eq_refl ltac:(lia))
                  | rewrite (Hearlier 2 _ _ eq_refl ltac:(lia)) ];
            cbv beta iota);
    unfold ret; by rewrite ?withLog_withLog.
Qed.

Lemma tryRead_exhausted fileName st :
  (forall c, In c (candidates fileName) -> readFileSync (snd c) = None) ->
  tryRead fileName st
  = Some (("", None),
          withLog st (map (fun c => Read (snd c)) (candidates fileName))).
Proof.
  intros H. unfold tryRead.
  assert (Hnth : forall j p q, candidates fileName !! j = Some (p, q) ->
                               readFileSync q = None).
  { intros j p q Hj. apply (H (p, q)), list_elem_of_In, list_elem_of_lookup. eauto. }
  rewrite bind_readFile, (Hnth 0 _ _ eq_refl); cbv beta iota.
  rewrite bind_readFile, (Hnth 1 _ _ eq_refl); cbv beta iota.
  rewrite bind_readFile, (Hnth 2 _ _ eq_refl); cbv beta iota.
  rewrite bind_readFile, (Hnth 3 _ _ eq_refl); cbv beta iota.
  unfold ret. by rewrite !withLog_withLog.
Qed.

Lemma search_first_pass fileName isRoot st prefix content st' :
  tryRead fileName st = Some ((prefix, Some content), st') ->
  search fileName isRoot st = Some (Found prefix fileName content, st').
Proof. intros H. unfold search, bind. by rewrite H. Qed.

Lemma search_second_pass fileName isRoot st i prefix path content :
  (forall c, In c (candidates fileName) -> readFileSync (snd c) = None) ->
  candidates (JS.toLowerCase fileName) !! i = Some (prefix, path) ->
  readFileSync path = Some content ->
  (forall j c, j < i -> candidates (JS.toLowerCase fileName) !! j = Some c ->
               readFileSync (snd c) = None) ->
  search fileName isRoot st
  = Some (Found prefix (JS.toLowerCase fileName) content,
          withLog st
            (map (fun c => Read (snd c)) (candidates fileName)
               ++ map (fun c => Read (snd c))
                    (take (S i) (candidates (JS.toLowerCase fileName))))).
Proof.
  intros Hfirst Hi Hread Hbefore. unfold search, bind.
  rewrite tryRead_exhausted by done.
  rewrite (tryRead_first_success _ _ _ _ _ _ Hi Hread Hbefore).
  unfold ret. by rewrite withLog_withLog.
Qed.

Lemma search_exhausted fileName isRoot st :
  locallyMissing readFileSync fileName ->
  search fileName isRoot st
  = Some (if negb isRoot && hasValidExtension fileName then External
          else NotFound (JS.toLowerCase fileName),
          withLog st (exhaustedReads fileName)).
Proof.
  intros H. unfold search, bind.
  rewrite tryRead_exhausted by (intros c Hc; apply H, in_or_app; auto).
  rewrite tryRead_exhausted by (intros c Hc; apply H, in_or_app; auto).
  rewrite withLog_withLog. unfold exhaustedReads. rewrite map_app.
  by destruct (negb isRoot && hasValidExtension fileName).
Qed.

Lemma embedObject_result resolve isRoot prefix fileName objectContent st p st' :
  embedObject resolve isRoot prefix fileName objectContent st = Some (p, st') ->
  p = objectPathOf prefix fileName.
Proof.
  unfold embedObject, bind, ret.
  destruct (truthyOpt objectContent); [|by intros [= <- _]].
  destruct (rewriteBody _ _ _ _ _) as [[body st1]|]; [|done].
  destruct (pushObject _ _ _) as [[[] st2]|]; [|done].
  by intros [= <- _].
Qed.

Lemma locallyMissing_check fileName :
  forallb (fun c => bool_decide (readFileSync (snd c) = None))
    (candidates fileName ++ candidates (JS.toLowerCase fileName)) = true ->
  locallyMissing readFileSync fileName.
Proof.
  intros H c Hc. rewrite forallb_forall in H.
  specialize (H c Hc). by apply bool_decide_eq_true in H.
Qed.

(** *** The external fallback *)





Lemma matchDigits_none s : noDigit s = true -> JS.matchDigits s = None.
Proof.
  unfold noDigit. induction s as [|c s IH]; simpl; [done|].
  destruct (JS.isDigit c); [done|]. apply IH.
Qed.


Lemma fetchLDrawValue_unusable partId st :
  fetch (url +:+ JS.replaceBpb partId) = NoIdentifier ->
  unusable (fetch (url +:+ JS.zeroBeforeLastRun (JS.replaceBpb partId))) = true ->
  exists lDrawId st',
    fetchLDrawValue partId st = Some (lDrawId, st') /\
    fallbackFileName partId lDrawId
    = JS.matchToString (JS.matchDigits partId) +:+ ".dat" /\
    log st' = log st ++ [Fetch (url +:+ JS.replaceBpb partId);
                         Fetch (url +:+ JS.zeroBeforeLastRun (JS.replaceBpb partId))].
Proof.
  intros H1 H2. unfold fetchLDrawValue, fetchJSON, bind, emit, ret. simpl.
  rewrite H1.
  destruct (fetch (url +:+ JS.zeroBeforeLastRun (JS.replaceBpb partId)))
    as [| |[id|]]; simpl in *;
    eexists _, _; (split; [reflexivity|]); simpl;
    rewrite <- ?app_assoc; try done.
  by destruct (truthy id).
Qed.

Lemma fetchLDrawValue_second partId st :
  fetch (url +:+ JS.replaceBpb partId) = NoIdentifier ->
  let second := fetch (url +:+ JS.zeroBeforeLastRun (JS.replaceBpb partId)) in
  let fetched :=
    withLog st [Fetch (url +:+ JS.replaceBpb partId);
                Fetch (url +:+ JS.zeroBeforeLastRun (JS.replaceBpb partId))] in
  fetchLDrawValue partId st
  = Some (identifierOf second,
          if isMiss second then withUnsupported fetched partId else fetched).
Proof.
  intros H1. unfold fetchLDrawValue, fetchJSON, bind, emit, ret. simpl.
  rewrite H1.
  destruct (fetch (url +:+ JS.zeroBeforeLastRun (JS.replaceBpb partId)));
    unfold withUnsupported, withLog; simpl; by rewrite <- ?app_assoc.
Qed.

Lemma fallbackFileName_unusable partId r :
  unusable r = true ->
  fallbackFileName partId (identifierOf r)
  = JS.matchToString (JS.matchDigits partId) +:+ ".dat".
Proof.
  destruct r as [| |[id|]]; simpl; try done.
  intros H%negb_true_iff. by rewrite H.
Qed.

(** The step into the external branch. *)
Lemma parseObject_external fuel fileName st :
  locallyMissing readFileSync fileName ->
  hasValidExtension fileName = true ->
  parseObject (S fuel) fileName false st
  = bind (fetchLDrawValue (Path.parseName fileName))
      (fun lDrawId =>
         parseObject fuel (fallbackFileName (Path.parseName fileName) lDrawId) false)
      (withLog st (exhaustedReads fileName)).
Proof.
  intros Hmissing Hext. simpl. unfold bind at 1.
  rewrite search_exhausted by done. by rewrite Hext.
Qed.

(** *** Scanning a line *)

Lemma substringFrom_app s t :
  JS.substringFrom (String.length s) (s +:+ t) = t.
Proof.
  induction s as [|c s IH]; rewrite ?app_String, ?app_empty_l; simpl; done.
Qed.

Lemma substringTo_app s t :
  JS.substringTo (String.length s) (s +:+ t) = s.
Proof.
  induction s as [|c s IH]; rewrite ?app_String, ?app_empty_l; simpl.
  - by destruct t.
  - by rewrite IH.
Qed.

Lemma substringFrom_all s : JS.substringFrom (String.length s) s = "".
Proof. induction s as [|c s IH]; simpl; done. Qed.

Lemma scanWhile_app f s t :
  allChars f s = true ->
  match t with String c _ => f c = false | EmptyString => True end ->
  scanWhile f (s +:+ t) = String.length s.
Proof.
  intros Hs Ht. induction s as [|c s IH]; simpl in *.
  - rewrite ?app_empty_l. destruct t as [|c t]; simpl; [done|]. by rewrite Ht.
  - apply andb_true_iff in Hs as [Hc Hs]. rewrite ?app_String. simpl.
    by rewrite Hc, IH.
Qed.

Lemma scanWhile_all f s : allChars f s = true -> scanWhile f s = String.length s.
Proof.
  intros H. induction s as [|c s IH]; simpl in *; [done|].
  apply andb_true_iff in H as [Hc Hs]. by rewrite Hc, IH.
Qed.

Lemma skipLeadingBlanks_app blanks line :
  allChars JS.isBlank blanks = true ->
  startsBlank line = false ->
  skipLeadingBlanks (blanks +:+ line) = line.
Proof.
  intros Hb Hl. unfold skipLeadingBlanks.
  rewrite scanWhile_app by (done || by destruct line).
  apply substringFrom_app.
Qed.


Lemma skipTokens_at_end n line :
  skipTokens n line (String.length line) = String.length line.
Proof. destruct n; simpl; [done|]. by rewrite Nat.ltb_irrefl. Qed.

(** The loop of lines 271-287 over a well-formed sequence of fields:
    each iteration advances over one field and its gap. *)
Lemma skipTokens_fields fields : forall n pre rest,
  fieldsOK fields rest = true ->
  skipTokens (length fields + n) (pre +:+ fieldsText fields +:+ rest)
    (String.length pre)
  = skipTokens n (pre +:+ fieldsText fields +:+ rest)
      (String.length (pre +:+ fieldsText fields)).
Proof.
  induction fields as [|[field gap] more IH]; intros n pre rest Hok.
  - simpl. by rewrite app_empty_l, app_empty_r.
  - simpl in Hok. repeat (apply andb_true_iff in Hok as [Hok ?]).
    rename Hok into Hfield.
    assert (Hgap : exists c g, gap = String c g /\ JS.isBlank c = true).
    { destruct gap as [|c g]; [done|]. exists c, g. split; [done|].
      simpl in *. by destruct (JS.isBlank c). }
    destruct Hgap as (c & g & Hgap & Hc).
    cbn [length Nat.add skipTokens fieldsText].
    assert (Hlt : Nat.ltb (String.length pre)
                    (String.length (pre +:+ (field +:+ gap +:+ fieldsText more) +:+ rest))
                  = true).
    { apply Nat.ltb_lt. rewrite Hgap, !length_app_s. simpl. lia. }
    rewrite Hlt, substringFrom_app.
    rewrite !app_assoc_s.
    rewrite (scanWhile_app _ field) by (done || (rewrite Hgap, app_String; by rewrite Hc)).
    replace (pre +:+ field +:+ gap +:+ fieldsText more +:+ rest)
      with ((pre +:+ field) +:+ gap +:+ fieldsText more +:+ rest)
      by by rewrite !app_assoc_s.
    rewrite <- length_app_s, substringFrom_app.
    rewrite (scanWhile_app _ gap)
      by (done || (destruct (fieldsText more +:+ rest); [done|];
                   simpl in *; by destruct (JS.isBlank _))).
    rewrite <- length_app_s.
    replace ((pre +:+ field) +:+ gap +:+ fieldsText more +:+ rest)
      with (((pre +:+ field) +:+ gap) +:+ fieldsText more +:+ rest)
      by by rewrite !app_assoc_s.
    rewrite IH by done. by rewrite !app_assoc_s.
Qed.

Lemma subobjectOf_fields fields rest :
  length fields = 13 ->
  fieldsOK fields rest = true ->
  subobjectOf ("1 " +:+ fieldsText fields +:+ rest)
  = (String.length ("1 " +:+ fieldsText fields),
     JS.replaceBackslashes (JS.trim rest)).
Proof.
  intros Hlen Hok. unfold subobjectOf.
  change 13 with (13 + 0). rewrite <- Hlen.
  change 2 with (String.length "1 ").
  rewrite skipTokens_fields by done. cbn [skipTokens].
  rewrite <- app_assoc_s. by rewrite substringFrom_app.
Qed.

Lemma subobjectOf_short fields last :
  length fields < 13 ->
  fieldsOK fields last = true ->
  noBlank last = true ->
  subobjectOf ("1 " +:+ fieldsText fields +:+ last)
  = (String.length ("1 " +:+ fieldsText fields +:+ last), "").
Proof.
  intros Hlen Hok Hlast. unfold subobjectOf.
  assert (Hn : exists n, 13 = length fields + S n) by (exists (12 - length fields); lia).
  destruct Hn as [n ->].
  change 2 with (String.length "1 ").
  rewrite skipTokens_fields by done.
  set (line := "1 " +:+ fieldsText fields +:+ last).
  assert (Hend : skipTokens (S n) line (String.length ("1 " +:+ fieldsText fields))
                 = String.length line).
  { cbn [skipTokens].
    destruct (Nat.ltb _ _) eqn:Hlt.
    - unfold line. rewrite <- app_assoc_s, substringFrom_app.
      rewrite (scanWhile_all _ last) by done.
      rewrite <- length_app_s, substringFrom_all. simpl.
      rewrite Nat.add_0_r. apply skipTokens_at_end.
    - apply Nat.ltb_ge in Hlt. unfold line in *.
      rewrite <- app_assoc_s in *. rewrite length_app_s in *.
      assert (String.length last = 0) by lia.
      destruct last; [|done]. by rewrite app_empty_r. }
  rewrite Hend. by rewrite substringFrom_all.
Qed.

(** *** Rewriting the lines *)

Lemma replaceCRLF_without s : JS.containsCRLF s = false -> JS.replaceCRLF s = s.
Proof.
  induction s as [|c r IH]; [done|].
  destruct r as [|c2 r2]; [done|].
  change (JS.containsCRLF (String c (String c2 r2)))
    with ((Ascii.eqb c JS.CR && Ascii.eqb c2 JS.LF) || JS.containsCRLF (String c2 r2)).
  change (JS.replaceCRLF (String c (String c2 r2)))
    with (if Ascii.eqb c JS.CR && Ascii.eqb c2 JS.LF
          then String JS.LF (JS.replaceCRLF r2)
          else String c (JS.replaceCRLF (String c2 r2))).
  intros [H1 H2]%orb_false_iff. rewrite H1. by rewrite IH.
Qed.

Lemma rewriteBody_lines resolve isRoot objectPath objectContent st :
  rewriteBody resolve isRoot objectPath objectContent st
  = processLines resolve (JS.split JS.LF (JS.replaceCRLF objectContent)) 0
      (if isRoot then "" else "0 FILE " +:+ objectPath +:+ NL) st.
Proof.
  unfold rewriteBody. destruct (JS.containsCRLF objectContent) eqn:H; [done|].
  by rewrite replaceCRLF_without.
Qed.

Lemma setPathMap_assigned key value st :
  setPathMap key value st = Some (tt, assigned st key value).
Proof. unfold setPathMap, assigned. by destruct (String.eqb key "__proto__"). Qed.

Lemma prepend_prepend a b r : prepend a (prepend b r) = prepend (a +:+ b) r.
Proof. destruct r as [[body st]|]; simpl; [|done]. by rewrite app_assoc_s. Qed.

Lemma rewriteSubobject_prepend resolve line processed st :
  rewriteSubobject resolve line processed st
  = prepend processed (rewriteSubobject resolve line "" st).
Proof.
  unfold rewriteSubobject. destruct (subobjectOf line) as [charIndex name].
  destruct (truthy name); [|by unfold ret; simpl; rewrite app_empty_r].
  unfold bind. destruct (cachedOrResolve resolve name st) as [[path st2]|]; [|done].
  by rewrite setPathMap_assigned.
Qed.

Lemma processLine_prepend resolve i rawLine processed st :
  processLine resolve i rawLine processed st
  = prepend processed (processLine resolve i rawLine "" st).
Proof.
  assert (Htail : forall line st1,
    (if JS.startsWith line "1 "
     then rewriteSubobject resolve line processed
     else ret (processed +:+ line +:+ NL)) st1
    = prepend processed
        ((if JS.startsWith line "1 "
          then rewriteSubobject resolve line ""
          else ret ("" +:+ line +:+ NL)) st1)).
  { intros line st1. destruct (JS.startsWith line "1 "); [|done].
    apply rewriteSubobject_prepend. }
  unfold processLine.
  destruct (JS.startsWith (skipLeadingBlanks rawLine) "0 FILE ").
  - destruct (i =? 0)%nat; cbn [andb].
    + unfold ret. simpl. by rewrite app_empty_r.
    + unfold bind.
      destruct (noteFileDirective (skipLeadingBlanks rawLine) st) as [[[] st1]|];
        [apply Htail|done].
  - apply Htail.
Qed.

Lemma processLines_prepend resolve lines : forall i processed st,
  processLines resolve lines i processed st
  = prepend processed (processLines resolve lines i "" st).
Proof.
  induction lines as [|rawLine rest IH]; intros i processed st; simpl.
  - unfold ret. simpl. by rewrite app_empty_r.
  - unfold bind. rewrite (processLine_prepend _ _ _ processed).
    destruct (processLine resolve i rawLine "" st) as [[body st1]|]; simpl;
      [|done].
    rewrite (IH _ (processed +:+ body)), (IH _ body). by rewrite prepend_prepend.
Qed.

Lemma startsWith_file_not_subobject line :
  JS.startsWith line "0 FILE " = true -> JS.startsWith line "1 " = false.
Proof.
  destruct line as [|c l]; [done|].
  change (JS.startsWith (String c l) "0 FILE ")
    with (Ascii.eqb "0" c && JS.startsWith l " FILE ").
  change (JS.startsWith (String c l) "1 ")
    with (Ascii.eqb "1" c && JS.startsWith l " ").
  intros [Hc _]%andb_true_iff. by apply Ascii.eqb_eq in Hc as <-.
Qed.

Lemma processLine_plain resolve i rawLine processed st :
  isPlain rawLine = true ->
  processLine resolve i rawLine processed st
  = Some (processed +:+ skipLeadingBlanks rawLine +:+ NL, st).
Proof.
  unfold isPlain, processLine.
  intros [Hfile Hsub]%andb_true_iff.
  apply negb_true_iff in Hfile, Hsub. by rewrite Hfile, Hsub.
Qed.

Lemma processLines_plain resolve lines : forall i processed st,
  forallb isPlain lines = true ->
  processLines resolve lines i processed st
  = Some (processed
            +:+ joinAll (map (fun l => skipLeadingBlanks l +:+ NL) lines),
          st).
Proof.
  induction lines as [|rawLine rest IH]; intros i processed st; simpl.
  - intros _. unfold ret. by rewrite app_empty_r.
  - intros [Hline Hrest]%andb_true_iff. unfold bind.
    rewrite processLine_plain by done. rewrite IH by done.
    by rewrite !app_assoc_s.
Qed.

(** A document of plain lines, served by a candidate of the first
    pass. *)
Lemma parseObject_plain fuel fileName (isRoot : bool) st i prefix content :
  servesPlain readFileSync fileName i prefix content ->
  parseObject (S fuel) fileName isRoot st
  = Some (objectPathOf prefix fileName,
          embedded (withLog st (readsUpTo fileName i))
            (objectPathOf prefix fileName)
            (plainBody isRoot (objectPathOf prefix fileName) content)).
Proof.
  intros (path & Hi & Hread & Hbefore & Htruthy & Hplain).
  simpl. unfold bind at 1.
  rewrite (search_first_pass _ isRoot _ _ _ _
             (tryRead_first_success _ st _ _ _ _ Hi Hread Hbefore)).
  unfold embedObject. simpl. rewrite Htruthy. unfold bind.
  rewrite rewriteBody_lines, processLines_plain by done.
  unfold pushObject, ret, embedded, plainBody, readsUpTo.
  change (objectsPaths (withLog st ?e)) with (objectsPaths st).
  by destruct (existsb _ _).
Qed.

Lemma processLine_subobject resolve i blanks text processed st :
  allChars JS.isBlank blanks = true ->
  processLine resolve i (blanks +:+ "1 " +:+ text) processed st
  = rewriteSubobject resolve ("1 " +:+ text) processed st.
Proof.
  intros Hb. unfold processLine.
  by rewrite skipLeadingBlanks_app.
Qed.

(** C4 (amended). On a subpart line whose token is followed directly
    by the first field, the scanner advances from the two-character
    token over 13 fields, each a non-empty run of characters other than
    space and tab, with the gaps after them, and the rest of the line,
    trimmed and slash-normalised, is the reference name.  With a name,
    the output is the text before the name as it stands in the line
    (stripped of its leading blanks), the path that the name resolves
    to, and a line end.  A line that ends within its first 13 fields
    has no name: nothing is resolved and the line is left out of the
    rewritten body. *)
Theorem subpart_line_fields resolve i blanks fields rest processed st :
  allChars JS.isBlank blanks = true ->
  fieldsOK fields rest = true ->
  startsBlank (fieldsText fields +:+ rest) = false ->
  let line := "1 " +:+ fieldsText fields +:+ rest in
  let kept := "1 " +:+ fieldsText fields in
  let name := JS.replaceBackslashes (JS.trim rest) in
  (length fields = 13 ->
     subobjectOf line = (String.length kept, name)
     /\ JS.substringTo (String.length kept) line = kept
     /\ (truthy name = true ->
         processLine resolve i (blanks +:+ line) processed st
         = bind (cachedOrResolve resolve name)
             (fun subobjectPath =>
                do _ <- setPathMap subobjectPath subobjectPath;
                ret (processed +:+ kept +:+ subobjectPath +:+ NL)) st)
     /\ (truthy name = false ->
         processLine resolve i (blanks +:+ line) processed st
         = Some (processed, st)))
  /\ (length fields < 13 -> noBlank rest = true ->
      subobjectOf line = (String.length line, "")
      /\ processLine resolve i (blanks +:+ line) processed st
         = Some (processed, st)).
Proof.
  intros Hblanks Hok _ line kept name.
  assert (Hkept : JS.substringTo (String.length kept) line = kept).
  { unfold line, kept. rewrite <- app_assoc_s. apply substringTo_app. }
  split.
  - intros Hlen.
    pose proof (subobjectOf_fields fields rest Hlen Hok) as Hsub.
    fold line kept name in Hsub.
    split_and!; [done|done| |].
    + intros Hname. unfold line. rewrite processLine_subobject by done.
      fold line. unfold rewriteSubobject. by rewrite Hsub, Hname, Hkept.
    + intros Hname. unfold line. rewrite processLine_subobject by done.
      fold line. unfold rewriteSubobject. by rewrite Hsub, Hname.
  - intros Hlen Hrest.
    pose proof (subobjectOf_short fields rest Hlen Hok Hrest) as Hsub.
    fold line in Hsub. split; [done|].
    unfold line. rewrite processLine_subobject by done.
    fold line. unfold rewriteSubobject. by rewrite Hsub.
Qed.

(** C6. A non-root body is one synthesized boundary line, which carries
    the document's own path, followed by what the body of the same
    document is as a root; the root body starts from the empty text, so
    that all of it comes from lines of the document; a file-boundary
    directive on the first line of a document adds nothing to its body
    or to the path cache; and the body is stored under the very path
    that its boundary line carries, which is the path returned. *)
Theorem boundary_lines resolve objectPath objectContent st :
  rewriteBody resolve false objectPath objectContent st
  = prepend ("0 FILE " +:+ objectPath +:+ NL)
      (rewriteBody resolve true objectPath objectContent st)
  /\ rewriteBody resolve true objectPath objectContent st
     = processLines resolve (JS.split JS.LF (JS.replaceCRLF objectContent)) 0 "" st
  /\ (forall rawLine rest processed st',
        JS.startsWith (skipLeadingBlanks rawLine) "0 FILE " = true ->
        processLine resolve 0 rawLine processed st' = Some (processed, st')
        /\ processLines resolve (rawLine :: rest) 0 processed st'
           = processLines resolve rest 1 processed st')
  /\ (forall isRoot prefix fileName path st',
        truthy objectContent = true ->
        embedObject resolve isRoot prefix fileName (Some objectContent) st
        = Some (path, st') ->
        path = objectPathOf prefix fileName /\
        exists body st1,
          rewriteBody resolve isRoot path objectContent st = Some (body, st1) /\
          pushObject path body st1 = Some (tt, st')).
Proof.
  split_and!.
  - rewrite !rewriteBody_lines. apply processLines_prepend.
  - apply rewriteBody_lines.
  - intros rawLine rest processed st' Hfile.
    assert (Hline : processLine resolve 0 rawLine processed st'
                    = Some (processed, st')).
    { unfold processLine. by rewrite Hfile. }
    split; [done|]. simpl. unfold bind. by rewrite Hline.
  - intros isRoot prefix fileName path st' Htruthy Hembed.
    pose proof (embedObject_result _ _ _ _ _ _ _ _ Hembed) as ->.
    split; [done|]. revert Hembed. unfold embedObject, bind. simpl.
    rewrite Htruthy.
    destruct (rewriteBody _ _ _ _ _) as [[body st1]|]; [|done].
    destruct (pushObject _ _ _) as [[[] st2]|] eqn:Hpush; [|done].
    intros [= <-]. by exists body, st1.
Qed.


(** *** The cache and the output sequences *)

Lemma grows_refl st : grows st st.
Proof. by split. Qed.

Lemma grows_trans st1 st2 st3 : grows st1 st2 -> grows st2 st3 -> grows st1 st3.
Proof. intros [H1 H2] [H3 H4]. split; eauto. Qed.

Lemma appendsTo_refl st : appendsTo st st.
Proof. exists [], []. by rewrite !app_nil_r. Qed.

Lemma appendsTo_trans st1 st2 st3 :
  appendsTo st1 st2 -> appendsTo st2 st3 -> appendsTo st1 st3.
Proof.
  intros (p1 & c1 & Hp1 & Hc1 & Hl1) (p2 & c2 & Hp2 & Hc2 & Hl2).
  exists (p1 ++ p2), (c1 ++ c2).
  rewrite Hp2, Hp1, Hc2, Hc1, <- !app_assoc, !length_app. auto.
Qed.

Lemma sameOutputs_appendsTo st st' : sameOutputs st st' -> appendsTo st st'.
Proof. intros [Hp Hc]. exists [], []. by rewrite Hp, Hc, !app_nil_r. Qed.

Lemma sameOutputs_grows st st' :
  sameOutputs st st' ->
  (forall name, truthy name = true ->
                cacheHit st name = true -> cacheHit st' name = true) ->
  grows st st'.
Proof. intros [Hp _] Hc. split; [done|]. by rewrite Hp. Qed.

Lemma sameOutputs_consistent st st' :
  sameOutputs st st' -> outputsConsistent st -> outputsConsistent st'.
Proof. intros [Hp Hc]. unfold outputsConsistent. by rewrite Hp, Hc. Qed.


Lemma cacheHit_withPathMap st key name :
  truthy name = true ->
  cacheHit st name = true ->
  cacheHit (withPathMap st key key) name = true.
Proof.
  unfold cacheHit, getPathMap, withPathMap. simpl. intros Hname Hhit.
  destruct (decide (key = name)) as [->|Hne].
  - by rewrite lookup_insert_eq.
  - by rewrite lookup_insert_ne.
Qed.

Lemma assigned_cases st key value :
  assigned st key value = st \/ assigned st key value = withPathMap st key value.
Proof. unfold assigned. destruct (String.eqb key "__proto__"); auto. Qed.

Lemma grows_withPathMap st key : grows st (withPathMap st key key).
Proof. split; [intros; by apply cacheHit_withPathMap|done]. Qed.

Lemma existsb_eqb_In p l : existsb (String.eqb p) l = true <-> In p l.
Proof.
  rewrite existsb_exists. split.
  - by intros (x & Hx & ->%String.eqb_eq).
  - intros H. exists p. by rewrite String.eqb_refl.
Qed.


Lemma pushObject_effect objectPath body st st' :
  pushObject objectPath body st = Some (tt, st') ->
  grows st st' /\ appendsTo st st' /\ In objectPath (objectsPaths st')
  /\ (outputsConsistent st -> outputsConsistent st').
Proof.
  unfold pushObject.
  destruct (existsb _ _) eqn:Hex; intros [= <-].
  - apply existsb_eqb_In in Hex.
    split_and!; auto using grows_refl, appendsTo_refl.
  - assert (Hnot : ~ In objectPath (objectsPaths st)).
    { intros Hin%existsb_eqb_In. congruence. }
    split_and!.
    + split; [done|]. simpl. intros p Hp. apply in_or_app. by left.
    + exists [objectPath], [body]. by simpl.
    + simpl. apply in_or_app. right. by left.
    + intros [Hnd Hlen]. split; simpl.
      * apply NoDup_app. split_and!; [done| |apply NoDup_singleton].
        intros x Hx ->%list_elem_of_singleton. by apply Hnot, list_elem_of_In.
      * rewrite !length_app. simpl. lia.
Qed.

Lemma advances_refl st : advances st st.
Proof. split_and!; auto using grows_refl, appendsTo_refl. Qed.

Lemma advances_trans st1 st2 st3 :
  advances st1 st2 -> advances st2 st3 -> advances st1 st3.
Proof.
  intros (G1 & A1 & C1) (G2 & A2 & C2).
  split_and!; eauto using grows_trans, appendsTo_trans.
Qed.

Lemma framed_advances st st' : framed st st' -> advances st st'.
Proof.
  intros [Hmap Hout]. split_and!.
  - apply sameOutputs_grows; [done|]. unfold cacheHit, getPathMap. by rewrite Hmap.
  - by apply sameOutputs_appendsTo.
  - by apply sameOutputs_consistent.
Qed.

Lemma framed_withLog st events : framed st (withLog st events).
Proof. by repeat split. Qed.

Lemma advances_withPathMap st key : advances st (withPathMap st key key).
Proof.
  split_and!; [apply grows_withPathMap|by apply sameOutputs_appendsTo|done].
Qed.


Lemma advances_assigned st key : advances st (assigned st key key).
Proof.
  destruct (assigned_cases st key key) as [->| ->];
    [apply advances_refl|apply advances_withPathMap].
Qed.

(** The search and the lookups read the state nowhere and write the
    log and the unsupported parts only. *)
Lemma tryRead_log fileName :
  exists result events, forall st,
    tryRead fileName st = Some (result, withLog st events).
Proof.
  unfold tryRead.
  destruct (readFileSync (Path.join [ldrawPath; fileName])) eqn:E0;
    [|destruct (readFileSync (Path.join [ldrawPath; "parts/"; fileName])) eqn:E1;
      [|destruct (readFileSync (Path.join [ldrawPath; "p/"; fileName])) eqn:E2;
        [|destruct (readFileSync (Path.join [ldrawPath; "models/"; fileName])) eqn:E3]]];
    eexists _, _; intros st;
    repeat (rewrite bind_readFile; rewrite ?E0, ?E1, ?E2, ?E3; cbv beta iota);
    unfold ret; rewrite ?withLog_withLog; reflexivity.
Qed.

Lemma search_log fileName isRoot :
  exists result events, forall st,
    search fileName isRoot st = Some (result, withLog st events).
Proof.
  destruct (tryRead_log fileName) as ([prefix0 content0] & ev0 & H0).
  destruct (tryRead_log (JS.toLowerCase fileName)) as ([prefix1 content1] & ev1 & H1).
  unfold search, bind.
  destruct content0 as [c0|];
    [|destruct content1 as [c1|];
      [|destruct (negb isRoot && hasValidExtension fileName)]];
    eexists _, _; intros st; rewrite H0; cbv beta iota; rewrite ?H1;
    cbv beta iota; unfold ret; rewrite ?withLog_withLog; reflexivity.
Qed.

Lemma fetchLDrawValue_log partId :
  exists lDrawId, forall st, exists st',
    fetchLDrawValue partId st = Some (lDrawId, st') /\ framed st st'.
Proof.
  unfold fetchLDrawValue, fetchJSON, bind, emit, ret, pushUnsupported.
  destruct (fetch (url +:+ JS.replaceBpb partId));
    [| destruct (fetch (url +:+ JS.zeroBeforeLastRun (JS.replaceBpb partId))) |];
    eexists; intros st; eexists; (split; [reflexivity|]); by repeat split.
Qed.

Section Lines.

(** The lines of a document are rewritten with some [resolve] for the
    nested calls; what holds of it holds of the whole loop. *)
Variable resolve : string -> M string.

Hypothesis resolve_advances : forall name st path st',
  resolve name st = Some (path, st') -> advances st st'.

Lemma noteFileDirective_advances line st st' :
  noteFileDirective line st = Some (tt, st') -> advances st st'.
Proof.
  unfold noteFileDirective, bind, getState, ret.
  destruct (truthy _); [|intros [= <-]; apply advances_refl].
  destruct (truthyOpt _); [intros [= <-]; apply advances_refl|].
  rewrite setPathMap_assigned. intros [= <-]. apply advances_assigned.
Qed.

Lemma cachedOrResolve_advances name st path st' :
  cachedOrResolve resolve name st = Some (path, st') -> advances st st'.
Proof.
  unfold cachedOrResolve, bind, getState, ret.
  destruct (getPathMap st name) as [cached|]; [destruct (truthy cached)|];
    eauto using advances_refl.
  intros [= _ <-]. apply advances_refl.
Qed.

Lemma rewriteSubobject_advances line processed st body st' :
  rewriteSubobject resolve line processed st = Some (body, st') ->
  advances st st'.
Proof.
  unfold rewriteSubobject. destruct (subobjectOf line) as [charIndex name].
  destruct (truthy name); [|intros [= _ <-]; apply advances_refl].
  unfold bind.
  destruct (cachedOrResolve resolve name st) as [[path st1]|] eqn:Hc; [|done].
  rewrite setPathMap_assigned.
  intros [= _ <-]. eapply advances_trans; [by eapply cachedOrResolve_advances|].
  apply advances_assigned.
Qed.

Lemma processLine_advances i rawLine processed st body st' :
  processLine resolve i rawLine processed st = Some (body, st') ->
  advances st st'.
Proof.
  unfold processLine.
  destruct (JS.startsWith _ "0 FILE ") eqn:Hfile.
  - destruct (i =? 0)%nat; cbn [andb];
      [intros [= _ <-]; apply advances_refl|].
    unfold bind.
    destruct (noteFileDirective _ st) as [[[] st1]|] eqn:Hnote; [|done].
    rewrite (startsWith_file_not_subobject _ Hfile).
    intros [= _ <-]. by eapply noteFileDirective_advances.
  - cbn [andb]. unfold bind at 1. unfold ret at 1.
    destruct (JS.startsWith _ "1 ");
      [apply rewriteSubobject_advances|intros [= _ <-]; apply advances_refl].
Qed.

Lemma processLines_advances lines : forall i processed st body st',
  processLines resolve lines i processed st = Some (body, st') ->
  advances st st'.
Proof.
  induction lines as [|rawLine rest IH]; intros i processed st body st'; simpl.
  - intros [= _ <-]. apply advances_refl.
  - unfold bind.
    destruct (processLine resolve i rawLine processed st) as [[b st1]|] eqn:Hl;
      [|done].
    intros Hrest. eapply advances_trans; [by eapply processLine_advances|].
    by eapply IH.
Qed.

Lemma embedObject_advances isRoot prefix fileName objectContent st path st' :
  embedObject resolve isRoot prefix fileName objectContent st = Some (path, st') ->
  advances st st'.
Proof.
  unfold embedObject.
  destruct (truthyOpt objectContent); [|intros [= _ <-]; apply advances_refl].
  unfold bind. rewrite rewriteBody_lines.
  destruct (processLines _ _ _ _ _) as [[body st1]|] eqn:Hlines; [|done].
  destruct (pushObject _ _ _) as [[[] st2]|] eqn:Hpush; [|done].
  intros [= _ <-]. eapply advances_trans; [by eapply processLines_advances|].
  apply pushObject_effect in Hpush as (? & ? & _ & ?). by split_and!.
Qed.

End Lines.

Lemma parseObject_advances fuel : forall fileName isRoot st path st',
  parseObject fuel fileName isRoot st = Some (path, st') -> advances st st'.
Proof.
  induction fuel as [|fuel IH]; intros fileName isRoot st path st'; [done|].
  simpl. unfold bind at 1.
  destruct (search_log fileName isRoot) as (result & events & Hsearch).
  rewrite Hsearch.
  assert (Hframe : advances st (withLog st events))
    by apply framed_advances, framed_withLog.
  destruct result as [prefix fileName' content|fileName'|].
  - intros H. eapply advances_trans; [exact Hframe|].
    eapply embedObject_advances; [|exact H].
    intros name s1 p1 s2 Hr. exact (IH _ _ _ _ _ Hr).
  - intros H. eapply advances_trans; [exact Hframe|].
    eapply embedObject_advances; [|exact H].
    intros name s1 p1 s2 Hr. exact (IH _ _ _ _ _ Hr).
  - unfold bind.
    destruct (fetchLDrawValue_log (Path.parseName fileName)) as (lDrawId & Hfetch).
    destruct (Hfetch (withLog st events)) as (st1 & -> & Hframe1).
    intros H. eapply advances_trans; [exact Hframe|].
    eapply advances_trans; [by apply framed_advances|]. by eapply IH.
Qed.

Section Again.

(** The same lines rewritten a second time, from a state that has grown
    out of the first rewriting. *)
Variables resolve1 resolve2 : string -> M string.

Hypothesis resolve1_advances : forall name st path st',
  resolve1 name st = Some (path, st') -> advances st st'.

Hypothesis resolve2_advances : forall name st path st',
  resolve2 name st = Some (path, st') -> advances st st'.

Hypothesis resolve_again : forall name st path st1 st2 path2 st3,
  resolve1 name st = Some (path, st1) ->
  grows st1 st2 ->
  resolve2 name st2 = Some (path2, st3) ->
  sameOutputs st2 st3.


Lemma cachedOrResolve_hit resolve name st :
  cacheHit st name = true ->
  exists path, cachedOrResolve resolve name st = Some (path, st).
Proof.
  unfold cacheHit, cachedOrResolve, bind, getState, ret.
  destruct (getPathMap st name) as [cached|]; simpl; [|done].
  intros ->. eauto.
Qed.

Lemma cachedOrResolve_miss resolve name st :
  cacheHit st name = false ->
  cachedOrResolve resolve name st = resolve name st.
Proof.
  unfold cacheHit, cachedOrResolve, bind, getState, ret.
  destruct (getPathMap st name) as [cached|]; simpl; [|done].
  by intros ->.
Qed.





End Again.




(** C5 (amended). Within a pass the candidates are tried in the order
    of the table [candidates]: the root-relative path, then [parts/],
    [p/] and [models/]; a success at the root-relative path records
    [p/] for a name that begins with ["48/"], [parts/] for one that
    begins with ["s/"] and no prefix otherwise, a success elsewhere the
    prefix it was read under.  The first candidate that can be read
    wins and the reads attempted are exactly the candidates up to it,
    in the first pass and, after a first pass without success, in the
    pass over the lower-cased name.  So a name that cannot be read at
    the root-relative path and can be read under [parts/] resolves
    there after two reads, whatever [models/] holds. *)
Theorem candidate_priority fileName isRoot st i prefix path content :
  candidates fileName !! i = Some (prefix, path) ->
  readFileSync path = Some content ->
  (forall j c, j < i -> candidates fileName !! j = Some c ->
               readFileSync (snd c) = None) ->
  let attempted := map (fun c => Read (snd c)) (take (S i) (candidates fileName)) in
  let special :=
    if JS.startsWith fileName "48/" then "p/"
    else if JS.startsWith fileName "s/" then "parts/"
    else "" in
  candidates fileName
  = [ (special, Path.join [ldrawPath; fileName]);
      ("parts/", Path.join [ldrawPath; "parts/"; fileName]);
      ("p/", Path.join [ldrawPath; "p/"; fileName]);
      ("models/", Path.join [ldrawPath; "models/"; fileName]) ]
  /\ tryRead fileName st = Some ((prefix, Some content), withLog st attempted)
  /\ search fileName isRoot st
     = Some (Found prefix fileName content, withLog st attempted)
  /\ length attempted = S i
  /\ (i = 0 -> prefix = special /\ attempted = [Read (Path.join [ldrawPath; fileName])])
  /\ (forall partsContent,
        readFileSync (Path.join [ldrawPath; fileName]) = None ->
        readFileSync (Path.join [ldrawPath; "parts/"; fileName]) = Some partsContent ->
        search fileName isRoot st
        = Some (Found "parts/" fileName partsContent,
                withLog st [Read (Path.join [ldrawPath; fileName]);
                            Read (Path.join [ldrawPath; "parts/"; fileName])]))
  /\ (forall original,
        JS.toLowerCase original = fileName ->
        (forall c, In c (candidates original) -> readFileSync (snd c) = None) ->
        search original isRoot st
        = Some (Found prefix fileName content,
                withLog st (map (fun c => Read (snd c)) (candidates original)
                              ++ attempted))).
Proof.
  intros Hi Hread Hbefore attempted special.
  pose proof (tryRead_first_success _ st _ _ _ _ Hi Hread Hbefore) as Htry.
  split; [reflexivity|]. split; [exact Htry|].
  split; [by apply search_first_pass|].
  split_and!.
  - apply lookup_lt_Some in Hi. unfold attempted.
    rewrite length_map, length_take. simpl in *. lia.
  - intros ->. by injection Hi as <- _.
  - intros partsContent Hroot Hparts. apply search_first_pass.
    apply (tryRead_first_success fileName st 1 "parts/" _ partsContent eq_refl Hparts).
    intros [|j] c Hj Hc; [|lia]. by injection Hc as <-.
  - intros original <- Hfirst.
    exact (search_second_pass original isRoot st i prefix path content
             Hfirst Hi Hread Hbefore).
Qed.

(** C9. For a name that begins with ["48/"] or ["s/"] the first read of
    a pass is at the root-relative path, without any prefix; when it
    succeeds it is the only read of the pass, and the special-case
    prefix ([p/], resp. [parts/]) goes into the path returned and
    nowhere else: the path returned is the location of the name under
    that prefix (as [Path.join] gives it for the library, trimmed and
    with slashes for backslashes), which is not the location that was
    read and is read nowhere in the pass. *)
Theorem special_prefix_location_not_read fileName content st :
  JS.startsWith fileName "48/" = true \/ JS.startsWith fileName "s/" = true ->
  readFileSync (Path.join [ldrawPath; fileName]) = Some content ->
  let prefix := if JS.startsWith fileName "48/" then "p/" else "parts/" in
  let reads := [Read (Path.join [ldrawPath; fileName])] in
  let prefixed := Path.join [ldrawPath; prefix; fileName] in
  let returned := JS.replaceBackslashes (JS.trim prefixed) in
  tryRead fileName st = Some ((prefix, Some content), withLog st reads)
  /\ (forall isRoot,
        search fileName isRoot st
        = Some (Found prefix fileName content, withLog st reads))
  /\ (forall original isRoot,
        JS.toLowerCase original = fileName ->
        (forall c, In c (candidates original) -> readFileSync (snd c) = None) ->
        search original isRoot st
        = Some (Found prefix fileName content,
                withLog st (map (fun c => Read (snd c)) (candidates original)
                              ++ reads)))
  /\ (forall fuel isRoot,
        parseObject (S fuel) fileName isRoot st
        = embedObject (fun name => parseObject fuel name false) isRoot
            prefix fileName (Some content) (withLog st reads))
  /\ (forall fuel isRoot objectPath st2,
        parseObject fuel fileName isRoot st = Some (objectPath, st2) ->
        objectPath = returned)
  /\ (forall fuel (isRoot : bool),
        truthy content = true ->
        forallb isPlain (JS.split JS.LF (JS.replaceCRLF content)) = true ->
        parseObject (S fuel) fileName isRoot st
        = Some (returned,
                embedded (withLog st reads) returned
                  (plainBody isRoot returned content)))
  /\ prefixed <> Path.join [ldrawPath; fileName]
  /\ ~ In (Read prefixed) reads.
Proof.
  intros Hname Hread prefix reads prefixed returned.
  assert (Hprefix : initialPrefix fileName = prefix).
  { unfold initialPrefix, prefix.
    destruct (JS.startsWith fileName "48/"); [done|].
    by destruct Hname as [?| ->]. }
  assert (Hfile : fileName <> "") by (by destruct Hname; destruct fileName).
  assert (Hreturned : objectPathOf prefix fileName = returned).
  { unfold objectPathOf, returned, prefixed, prefix.
    destruct (JS.startsWith fileName "48/");
      by rewrite join_library_prefixed. }
  assert (Htry : tryRead fileName st = Some ((prefix, Some content), withLog st reads)).
  { rewrite <- Hprefix.
    apply (tryRead_first_success fileName st 0 _ _ content eq_refl Hread).
    intros j c Hj. lia. }
  assert (Hneq : prefixed <> Path.join [ldrawPath; fileName]).
  { unfold prefixed, prefix. destruct (JS.startsWith fileName "48/").
    - by apply (join_directory_differs "p").
    - by apply (join_directory_differs "parts"). }
  assert (Hstep : forall fuel isRoot,
            parseObject (S fuel) fileName isRoot st
            = embedObject (fun name => parseObject fuel name false) isRoot
                prefix fileName (Some content) (withLog st reads)).
  { intros fuel isRoot. simpl. unfold bind at 1.
    by rewrite (search_first_pass _ isRoot _ _ _ _ Htry). }
  split; [done|]. split; [by intros; apply search_first_pass|].
  split.
  { intros original isRoot Hlower Hfirst. rewrite <- Hprefix. subst fileName.
    apply (search_second_pass original isRoot st 0 _ _ content Hfirst eq_refl Hread).
    intros j c Hj. lia. }
  split; [exact Hstep|].
  split.
  { intros [|fuel] isRoot objectPath st2; [done|]. rewrite Hstep.
    intros Hembed. rewrite <- Hreturned. by eapply embedObject_result. }
  split.
  { intros fuel isRoot Htruthy Hplain. rewrite <- Hreturned.
    apply (parseObject_plain fuel fileName isRoot st 0 prefix content).
    exists (Path.join [ldrawPath; fileName]). rewrite <- Hprefix.
    split_and!; try done. intros j c Hj. lia. }
  split; [done|].
  intros [E|[]]. by injection E.
Qed.


(** C10. When the local search fails for a non-root reference with a
    content-file extension whose base name holds no digit, and the two
    lookups give no identifier, the regular expression finds nothing,
    the name built is the text of [null] followed by [.dat], and
    [null.dat] is the name resolved next: when a document of plain
    lines is served under that name, the call returns its path. *)
Theorem fallback_without_digits_is_null_dat fuel fileName st :
  locallyMissing readFileSync fileName ->
  hasValidExtension fileName = true ->
  let partId := Path.parseName fileName in
  let stdId1 := JS.replaceBpb partId in
  let stdId2 := JS.zeroBeforeLastRun stdId1 in
  noDigit partId = true ->
  fetch (url +:+ stdId1) = NoIdentifier ->
  unusable (fetch (url +:+ stdId2)) = true ->
  let searched := withLog st (exhaustedReads fileName) in
  let fetched := withLog searched [Fetch (url +:+ stdId1); Fetch (url +:+ stdId2)] in
  let st' :=
    if isMiss (fetch (url +:+ stdId2)) then withUnsupported fetched partId
    else fetched in
  let lDrawId := identifierOf (fetch (url +:+ stdId2)) in
  search fileName false st = Some (External, searched)
  /\ fetchLDrawValue partId searched = Some (lDrawId, st')
  /\ JS.matchDigits partId = None
  /\ fallbackFileName partId lDrawId = "null.dat"
  /\ parseObject (S fuel) fileName false st = parseObject fuel "null.dat" false st'
  /\ log st' = log st ++ exhaustedReads fileName
                  ++ [Fetch (url +:+ stdId1); Fetch (url +:+ stdId2)]
  /\ (forall i prefix content,
        servesPlain readFileSync "null.dat" i prefix content ->
        let objectPath := objectPathOf prefix "null.dat" in
        parseObject (S (S fuel)) fileName false st
        = Some (objectPath,
                embedded (withLog st' (readsUpTo "null.dat" i)) objectPath
                  (plainBody false objectPath content))).
Proof.
  intros Hmissing Hext partId stdId1 stdId2 Hdigits H1 H2 searched fetched st' lDrawId.
  assert (Hfetch : fetchLDrawValue partId searched = Some (lDrawId, st'))
    by (by apply fetchLDrawValue_second).
  assert (Hname : fallbackFileName partId lDrawId = "null.dat").
  { unfold lDrawId. rewrite fallbackFileName_unusable by done.
    by rewrite (matchDigits_none _ Hdigits). }
  assert (Hstep : forall fuel',
            parseObject (S fuel') fileName false st
            = parseObject fuel' "null.dat" false st').
  { intros fuel'. rewrite parseObject_external by done. unfold bind.
    fold partId searched. by rewrite Hfetch, Hname. }
  split_and!.
  - rewrite search_exhausted by done. by rewrite Hext.
  - exact Hfetch.
  - by apply matchDigits_none.
  - exact Hname.
  - apply Hstep.
  - unfold st', fetched, searched. destruct (isMiss _); simpl; by rewrite <- app_assoc.
  - intros i prefix content Hserved objectPath.
    by rewrite Hstep, (parseObject_plain _ _ _ _ _ _ _ Hserved).
Qed.

(** C2 (amended). The search for a root never ends in the external
    branch.  When no candidate location of the root document can be
    read, the root resolution issues no lookup, records nothing and
    returns the lower-cased name as the path; the run does not stop
    there: with the materials file readable it goes on to the write of
    the output file, whose content is the materials and two line ends,
    and it is rejected only when that write fails. *)
Theorem root_not_found_still_writes fuel fileName materialsContent :
  locallyMissing readFileSync fileName ->
  readFileSync (Path.join [ldrawPath; materialsFileName]) = Some materialsContent ->
  let outPath := fileName +:+ "_Packed.mpd" in
  let packedContent := materialsContent +:+ NL +:+ NL in
  (forall name st result st',
     search name true st = Some (result, st') -> result <> External)
  /\ (forall st,
        parseObject (S fuel) fileName true st
        = Some (objectPathOf "" (JS.toLowerCase fileName),
                withLog st (exhaustedReads fileName)))
  /\ (forall u, ~ In (Fetch u) (exhaustedReads fileName))
  /\ packLDrawModel (S fuel) fileName initialState
     = Some (if writeFileSync outPath packedContent
             then Written outPath packedContent
             else Rejected,
             withLog initialState
               (Read (Path.join [ldrawPath; materialsFileName])
                  :: exhaustedReads fileName)).
Proof.
  intros Hmissing Hmaterials outPath packedContent.
  assert (Hroot : forall st,
             parseObject (S fuel) fileName true st
             = Some (objectPathOf "" (JS.toLowerCase fileName),
                     withLog st (exhaustedReads fileName))).
  { intros st. simpl. unfold bind at 1. by rewrite search_exhausted. }
  split_and!.
  - intros name st result st'. unfold search, bind.
    destruct (tryRead name st) as [[[p0 [c0|]] s0]|]; [by intros [= <- _]| |done].
    destruct (tryRead _ s0) as [[[p1 [c1|]] s1]|]; [by intros [= <- _]| |done].
    by intros [= <- _].
  - exact Hroot.
  - intros u Hin. unfold exhaustedReads in Hin.
    apply in_map_iff in Hin as (c & Hc & _). discriminate.
  - unfold packLDrawModel. rewrite bind_readFile, Hmaterials.
    unfold bind. rewrite Hroot. simpl. rewrite app_assoc_s.
    fold outPath packedContent.
    by destruct (writeFileSync outPath packedContent).
Qed.

(** *** The lookups, case by case *)

(** X1. Whatever the first lookup answers other than a reply without
    identifier, be it an identifier, an empty list or a failure of the
    request, [fetchLDrawValue] stops there: one lookup, no second
    attempt, nothing recorded as unsupported. *)
Theorem first_lookup_settles partId st :
  isMiss (fetch (firstQuery partId)) = false ->
  fetchLDrawValue partId st
  = Some (identifierOf (fetch (firstQuery partId)),
          withLog st [Fetch (firstQuery partId)]).
Proof.
  unfold fetchLDrawValue, firstQuery, fetchJSON, bind, emit, ret. simpl.
  by destruct (fetch (url +:+ JS.replaceBpb partId)).
Qed.

(** X2. [fetchLDrawValue] always returns, after one or two lookups; it
    touches neither the cache nor the outputs; and the part is recorded
    as unsupported, once, exactly when both lookups give a reply
    without identifier: a request that fails is not recorded. *)
Theorem unsupported_only_after_two_misses partId st :
  exists lDrawId st',
    fetchLDrawValue partId st = Some (lDrawId, st')
    /\ framed st st'
    /\ (exists events, log st' = log st ++ events /\
                       1 <= fetchesOf events <= 2 /\
                       length events = fetchesOf events)
    /\ (if isMiss (fetch (firstQuery partId))
           && isMiss (fetch (secondQuery partId))
        then unsupportedParts st' = unsupportedParts st ++ [partId]
             /\ lDrawId = None
        else unsupportedParts st' = unsupportedParts st).
Proof.
  unfold fetchLDrawValue, firstQuery, secondQuery, fetchJSON, bind, emit, ret,
    pushUnsupported.
  destruct (fetch (url +:+ JS.replaceBpb partId)) as [| |v1];
    [| destruct (fetch (url +:+ JS.zeroBeforeLastRun (JS.replaceBpb partId)))
         as [| |v2] |];
    eexists _, _; (split; [reflexivity|]); simpl;
    (split; [by repeat split|]);
    (split; [|done]);
    [ exists [Fetch (url +:+ JS.replaceBpb partId)]
    | exists [Fetch (url +:+ JS.replaceBpb partId);
              Fetch (url +:+ JS.zeroBeforeLastRun (JS.replaceBpb partId))]
    | exists [Fetch (url +:+ JS.replaceBpb partId);
              Fetch (url +:+ JS.zeroBeforeLastRun (JS.replaceBpb partId))]
    | exists [Fetch (url +:+ JS.replaceBpb partId);
              Fetch (url +:+ JS.zeroBeforeLastRun (JS.replaceBpb partId))]
    | exists [Fetch (url +:+ JS.replaceBpb partId)] ];
    (split; [by rewrite <- ?app_assoc|]); unfold fetchesOf; simpl; lia.
Qed.

Lemma zeroBeforeLastRun_noDigit s :
  noDigit s = true -> JS.zeroBeforeLastRun s = s.
Proof.
  unfold noDigit. induction s as [|c r IH]; simpl; [done|].
  intros [Hc Hr]%andb_true_iff. apply negb_true_iff in Hc.
  rewrite Hc. simpl. by rewrite IH.
Qed.

Lemma noDigit_dropWhile f s : noDigit s = true -> noDigit (JS.dropWhile f s) = true.
Proof.
  unfold noDigit. induction s as [|c r IH]; simpl; [done|].
  intros H. destruct (f c); [|done].
  apply andb_true_iff in H as [_ Hr]. by apply IH.
Qed.

Lemma digitAhead_digit s : JS.digitAhead s = true -> noDigit s = false.
Proof.
  unfold noDigit. induction s as [|c r IH]; simpl; [done|].
  destruct (JS.isLineTerminator c); [done|].
  destruct (JS.isDigit c); simpl; [done|]. apply IH.
Qed.

(** With a digit in it, the text gets one ["0"], in front of a digit. *)
Lemma zeroBeforeLastRun_digit s :
  noDigit s = false ->
  exists pre c post,
    s = pre +:+ String c post /\ JS.isDigit c = true /\
    JS.zeroBeforeLastRun s = pre +:+ "0" +:+ String c post.
Proof.
  induction s as [|c r IH]; [done|].
  intros Hs. simpl.
  destruct (JS.isDigit c && negb (JS.digitAhead (JS.dropWhile JS.isDigit r))) eqn:Hhere.
  - apply andb_true_iff in Hhere as [Hc _]. by exists "", c, r.
  - assert (Hr : noDigit r = false).
    { unfold noDigit in *. simpl in Hs.
      destruct (JS.isDigit c) eqn:Hc; simpl in *; [|done].
      apply negb_false_iff, digitAhead_digit in Hhere.
      destruct (allChars _ r) eqn:Hall; [|done].
      by rewrite (noDigit_dropWhile _ r Hall) in Hhere. }
    destruct (IH Hr) as (pre & d & post & -> & Hd & ->).
    by exists (String c pre), d, post.
Qed.

Lemma replaceBpb_noDigit_bounded n : forall s,
  String.length s <= n -> noDigit (JS.replaceBpb s) = noDigit s.
Proof.
  unfold noDigit.
  induction n as [|n IH]; intros s Hlen.
  - destruct s; [done|]. simpl in Hlen. lia.
  - destruct s as [|c r]; [done|].
    destruct r as [|c2 [|c3 r3]]; [done| |].
    + change (JS.replaceBpb (String c (String c2 "")))
        with (String c (JS.replaceBpb (String c2 ""))).
      cbn [allChars]. rewrite IH; [done|]. simpl in *. lia.
    + change (JS.replaceBpb (String c (String c2 (String c3 r3))))
        with (if Ascii.eqb c "b" && Ascii.eqb c2 "p" && Ascii.eqb c3 "b"
              then String "p" (String "b" (JS.replaceBpb r3))
              else String c (JS.replaceBpb (String c2 (String c3 r3)))).
      destruct (Ascii.eqb c "b" && Ascii.eqb c2 "p" && Ascii.eqb c3 "b") eqn:Hm.
      * apply andb_true_iff in Hm as [[Hc Hc2]%andb_true_iff Hc3].
        apply Ascii.eqb_eq in Hc as ->, Hc2 as ->, Hc3 as ->.
        cbn [allChars]. rewrite IH by (simpl in *; lia). reflexivity.
      * cbn [allChars]. rewrite (IH (String c2 (String c3 r3))) by (simpl in *; lia).
        reflexivity.
Qed.

Lemma replaceBpb_noDigit s : noDigit (JS.replaceBpb s) = noDigit s.
Proof. by apply (replaceBpb_noDigit_bounded (String.length s)). Qed.

(** X3. The second lookup asks for the first query with one ["0"] put
    in front of a digit; for a part without any digit the two queries
    are the same, so that the second lookup repeats the first. *)
Theorem second_query_shape partId :
  if noDigit partId
  then secondQuery partId = firstQuery partId
  else exists pre c post,
         firstQuery partId = url +:+ pre +:+ String c post /\
         JS.isDigit c = true /\
         secondQuery partId = url +:+ pre +:+ "0" +:+ String c post.
Proof.
  unfold firstQuery, secondQuery.
  destruct (noDigit partId) eqn:Hd.
  - rewrite zeroBeforeLastRun_noDigit; [done|]. by rewrite replaceBpb_noDigit.
  - destruct (zeroBeforeLastRun_digit (JS.replaceBpb partId))
      as (pre & c & post & E & Hc & ->); [by rewrite replaceBpb_noDigit|].
    exists pre, c, post. by rewrite E.
Qed.

(** X4. When the local search fails for a non-root reference with a
    content-file extension and a lookup, the first or after a first
    miss the second, gives a non-empty identifier, the lookup returns
    it and records nothing as unsupported, and the name resolved next
    is that identifier followed by [.dat]: when a document of plain
    lines is served under that name, the call returns its path. *)
Theorem lookup_hit_resolves_identifier fuel fileName st id :
  locallyMissing readFileSync fileName ->
  hasValidExtension fileName = true ->
  let partId := Path.parseName fileName in
  fetch (firstQuery partId) = Identifier (Some id)
  \/ (fetch (firstQuery partId) = NoIdentifier /\
      fetch (secondQuery partId) = Identifier (Some id)) ->
  truthy id = true ->
  let searched := withLog st (exhaustedReads fileName) in
  let st' :=
    withLog searched
      (if isMiss (fetch (firstQuery partId))
       then [Fetch (firstQuery partId); Fetch (secondQuery partId)]
       else [Fetch (firstQuery partId)]) in
  fetchLDrawValue partId searched = Some (Some id, st')
  /\ fallbackFileName partId (Some id) = id +:+ ".dat"
  /\ parseObject (S fuel) fileName false st
     = parseObject fuel (id +:+ ".dat") false st'
  /\ framed st st'
  /\ unsupportedParts st' = unsupportedParts st
  /\ (forall i prefix content,
        servesPlain readFileSync (id +:+ ".dat") i prefix content ->
        let objectPath := objectPathOf prefix (id +:+ ".dat") in
        parseObject (S (S fuel)) fileName false st
        = Some (objectPath,
                embedded (withLog st' (readsUpTo (id +:+ ".dat") i)) objectPath
                  (plainBody false objectPath content))).
Proof.
  intros Hmissing Hext partId Hhit Hid searched st'.
  assert (Hfetch : fetchLDrawValue partId searched = Some (Some id, st')).
  { unfold st'. unfold firstQuery, secondQuery in *.
    unfold fetchLDrawValue, fetchJSON, bind, emit, ret. simpl.
    destruct Hhit as [H1|[H1 H2]]; rewrite H1; [|rewrite H2]; simpl;
      unfold withLog; simpl; by rewrite <- ?app_assoc. }
  assert (Hname : fallbackFileName partId (Some id) = id +:+ ".dat")
    by (unfold fallbackFileName; by rewrite Hid).
  assert (Hstep : forall fuel',
            parseObject (S fuel') fileName false st
            = parseObject fuel' (id +:+ ".dat") false st').
  { intros fuel'. rewrite parseObject_external by done. unfold bind.
    fold partId searched. by rewrite Hfetch, Hname. }
  split_and!; try done.
  intros i prefix content Hserved objectPath.
  by rewrite Hstep, (parseObject_plain _ _ _ _ _ _ _ Hserved).
Qed.

(** X5. A non-root reference that is found nowhere and whose name does
    not end in [.ldr], [.dat] or [.mpd], in these very letters, is not
    looked up: after the eight reads the call returns the lower-cased
    name as the path and leaves everything but the log as it was. *)
Theorem missing_without_extension_returns fuel fileName st :
  locallyMissing readFileSync fileName ->
  hasValidExtension fileName = false ->
  parseObject (S fuel) fileName false st
  = Some (objectPathOf "" (JS.toLowerCase fileName),
          withLog st (exhaustedReads fileName))
  /\ fetchesOf (exhaustedReads fileName) = 0
  /\ length (exhaustedReads fileName) = 8.
Proof.
  intros Hmissing Hext. split_and!.
  - simpl. unfold bind at 1. rewrite search_exhausted by done.
    by rewrite Hext.
  - reflexivity.
  - reflexivity.
Qed.

(** X6. A candidate that is read and turns out empty ends the search
    like any other, with its prefix, but counts as no content: no
    further candidate and no lookup is tried, nothing is embedded, and
    the call returns the path. *)
Theorem empty_file_is_not_embedded fuel fileName isRoot st i prefix path :
  candidates fileName !! i = Some (prefix, path) ->
  readFileSync path = Some "" ->
  (forall j c, j < i -> candidates fileName !! j = Some c ->
               readFileSync (snd c) = None) ->
  parseObject (S fuel) fileName isRoot st
  = Some (objectPathOf prefix fileName,
          withLog st (map (fun c => Read (snd c))
                        (take (S i) (candidates fileName)))).
Proof.
  intros Hi Hread Hbefore. simpl. unfold bind at 1.
  rewrite (search_first_pass _ isRoot _ _ _ _
             (tryRead_first_success _ st _ _ _ _ Hi Hread Hbefore)).
  reflexivity.
Qed.

(** X7. A name that is found nowhere, that no lookup knows and that is
    its own degraded default (as [null.dat] is, and every name that is
    its digits and [.dat]) is never resolved: the call asks for the
    same name again and again, and returns for no amount of fuel. *)
Theorem own_default_never_returns fileName :
  locallyMissing readFileSync fileName ->
  hasValidExtension fileName = true ->
  let partId := Path.parseName fileName in
  fetch (firstQuery partId) = NoIdentifier ->
  unusable (fetch (secondQuery partId)) = true ->
  JS.matchToString (JS.matchDigits partId) +:+ ".dat" = fileName ->
  forall fuel st, parseObject fuel fileName false st = None.
Proof.
  intros Hmissing Hext partId H1 H2 Hfix fuel. subst partId.
  induction fuel as [|fuel IH]; intros st; [done|].
  rewrite parseObject_external by done. unfold bind.
  destruct (fetchLDrawValue_unusable (Path.parseName fileName)
              (withLog st (exhaustedReads fileName)) H1 H2)
    as (lDrawId & st' & -> & Hname & _).
  rewrite Hname, Hfix. apply IH.
Qed.

(** *** Properties that every nested call keeps *)

Lemma pushObject_cases objectPath body st :
  (In objectPath (objectsPaths st) /\
   pushObject objectPath body st = Some (tt, st))
  \/ (~ In objectPath (objectsPaths st) /\
      pushObject objectPath body st = Some (tt, withObject st objectPath body)).
Proof.
  unfold pushObject. destruct (existsb _ _) eqn:Hex.
  - left. split; [by apply existsb_eqb_In|done].
  - right. split; [|done]. intros Hin%existsb_eqb_In. congruence.
Qed.

Lemma noteFileDirective_cases line st :
  noteFileDirective line st = Some (tt, st)
  \/ exists key, noteFileDirective line st = Some (tt, withPathMap st key key).
Proof.
  unfold noteFileDirective, bind, getState, ret.
  destruct (truthy _); [|by left].
  destruct (truthyOpt (getPathMap st _)); [by left|].
  rewrite setPathMap_assigned. unfold assigned.
  destruct (String.eqb _ "__proto__"); [by left|right; by eexists].
Qed.

Section Kept.

(** A property of the state that the updates of the cache and of the
    log leave alone, and that holds on when a non-root document is
    embedded under its path. *)
Variable P : state -> Prop.

Hypothesis P_cache : forall st key, P st -> P (withPathMap st key key).

Hypothesis P_framed : forall st st', framed st st' -> P st -> P st'.

Hypothesis P_embed : forall st prefix fileName rest,
  P st ->
  P (withObject st (objectPathOf prefix fileName)
       ("0 FILE " +:+ objectPathOf prefix fileName +:+ NL +:+ rest)).

Section KeptLines.

Variable resolve : string -> M string.

Hypothesis resolve_keeps : forall name st path st',
  P st -> resolve name st = Some (path, st') -> P st'.

Lemma processLine_keeps i rawLine processed st body st' :
  P st -> processLine resolve i rawLine processed st = Some (body, st') -> P st'.
Proof.
  intros HP. unfold processLine.
  destruct (JS.startsWith _ "0 FILE ") eqn:Hfile.
  - destruct (i =? 0)%nat; cbn [andb]; [by intros [= _ <-]|].
    rewrite (startsWith_file_not_subobject _ Hfile). unfold bind.
    destruct (noteFileDirective_cases (skipLeadingBlanks rawLine) st)
      as [->|[key ->]]; unfold ret; intros [= _ <-]; [done|by apply P_cache].
  - cbn [andb]. unfold bind at 1. unfold ret at 1.
    destruct (JS.startsWith _ "1 "); [|by intros [= _ <-]].
    unfold rewriteSubobject. destruct (subobjectOf _) as [charIndex name].
    destruct (truthy name); [|by intros [= _ <-]].
    unfold bind.
    destruct (cachedOrResolve resolve name st) as [[p1 s1]|] eqn:Hc; [|done].
    rewrite setPathMap_assigned. unfold ret. intros [= _ <-].
    enough (P s1)
      by (destruct (assigned_cases s1 p1 p1) as [->| ->]; [done|by apply P_cache]).
    destruct (cacheHit st name) eqn:Hhit.
    + destruct (cachedOrResolve_hit resolve name st Hhit) as [p2 Hp2].
      rewrite Hp2 in Hc. by injection Hc as _ <-.
    + rewrite cachedOrResolve_miss in Hc by done. by eapply resolve_keeps.
Qed.

Lemma processLines_keeps lines : forall i processed st body st',
  P st -> processLines resolve lines i processed st = Some (body, st') -> P st'.
Proof.
  induction lines as [|rawLine rest IH]; intros i processed st body st' HP; simpl.
  - by intros [= _ <-].
  - unfold bind.
    destruct (processLine resolve i rawLine processed st) as [[b st1]|] eqn:Hl;
      [|done].
    apply IH. by eapply processLine_keeps.
Qed.

Lemma embedObject_keeps prefix fileName objectContent st path st' :
  P st ->
  embedObject resolve false prefix fileName objectContent st = Some (path, st') ->
  P st'.
Proof.
  intros HP. unfold embedObject.
  destruct (truthyOpt objectContent); [|by intros [= _ <-]].
  unfold bind. rewrite rewriteBody_lines, processLines_prepend.
  destruct (processLines resolve _ _ "" st) as [[rest st1]|] eqn:Hlines;
    [|done].
  simpl.
  destruct (pushObject_cases (objectPathOf prefix fileName)
              (("0 FILE " +:+ objectPathOf prefix fileName +:+ NL) +:+ rest) st1)
    as [[_ ->]|[_ ->]]; intros [= _ <-].
  - by eapply processLines_keeps.
  - rewrite !app_assoc_s. apply P_embed. by eapply processLines_keeps.
Qed.

End KeptLines.

Lemma parseObject_keeps fuel : forall fileName st path st',
  P st -> parseObject fuel fileName false st = Some (path, st') -> P st'.
Proof.
  induction fuel as [|fuel IH]; intros fileName st path st' HP; [done|].
  simpl. unfold bind at 1.
  destruct (search_log fileName false) as (result & events & Hsearch).
  rewrite Hsearch.
  assert (HP1 : P (withLog st events))
    by (eapply P_framed; [apply framed_withLog|done]).
  destruct result as [prefix fileName' content|fileName'|].
  - by apply embedObject_keeps.
  - by apply embedObject_keeps.
  - unfold bind.
    destruct (fetchLDrawValue_log (Path.parseName fileName)) as (lDrawId & Hfetch).
    destruct (Hfetch (withLog st events)) as (st1 & -> & Hframe1).
    apply IH. by eapply P_framed.
Qed.

End Kept.

Lemma identityMap_withPathMap st key :
  identityMap st -> identityMap (withPathMap st key key).
Proof.
  intros Hid k v. unfold withPathMap. simpl.
  destruct (decide (key = k)) as [->|Hne].
  - rewrite lookup_insert_eq. congruence.
  - rewrite lookup_insert_ne by done. apply Hid.
Qed.

Lemma identityMap_initial : identityMap initialState.
Proof. intros key value Hlook. simpl in Hlook. by rewrite lookup_empty in Hlook. Qed.

Lemma identityMap_pathMap st st' :
  pathMap st' = pathMap st -> identityMap st -> identityMap st'.
Proof. unfold identityMap. by intros ->. Qed.

Lemma objectPrototype_text key text :
  objectPrototype key = Some text ->
  truthy text = true /\ String.eqb text "__proto__" = false.
Proof.
  unfold objectPrototype, nativeFunction.
  destruct (String.eqb key "constructor"); [by intros [= <-]|].
  destruct (String.eqb key "__proto__"); [by intros [= <-]|].
  destruct (existsb _ _); [by intros [= <-]|done].
Qed.

(** X8. Every own property of the path cache holds a value whose text
    is its key: from such a cache, and from the empty one, every
    resolution, of a root or not, leads to such a cache.  So what the
    cache answers for a name is the name itself, unless it has no own
    property of that name and the answer is the member that
    [Object.prototype] has under it. *)
Theorem cache_is_identity fuel fileName isRoot st path st' :
  identityMap st ->
  parseObject fuel fileName isRoot st = Some (path, st') ->
  identityMap st'
  /\ (forall name answer,
        getPathMap st' name = Some answer ->
        answer = name
        \/ (pathMap st' !! name = None /\ objectPrototype name = Some answer)).
Proof.
  intros Hid Hrun.
  enough (Hst' : identityMap st').
  { split; [done|]. intros name answer. unfold getPathMap.
    destruct (pathMap st' !! name) as [value|] eqn:Hlook.
    - intros [= <-]. left. by apply Hst'.
    - intros Hproto. by right. }
  assert (Hnested : forall fuel' name s p s',
             identityMap s -> parseObject fuel' name false s = Some (p, s') ->
             identityMap s').
  { intros fuel' name s p s'.
    apply (parseObject_keeps identityMap).
    - intros; by apply identityMap_withPathMap.
    - intros s1 s2 [Hmap _]. by apply identityMap_pathMap.
    - intros s1 prefix f rest. by apply identityMap_pathMap. }
  destruct isRoot; [|by eapply Hnested].
  destruct fuel as [|fuel]; [done|].
  revert Hrun. simpl. unfold bind at 1.
  destruct (search_log fileName true) as (result & events & Hsearch).
  rewrite Hsearch.
  assert (Hembed : forall prefix f content,
    embedObject (fun name => parseObject fuel name false) true prefix f content
      (withLog st events) = Some (path, st') -> identityMap st').
  { intros prefix f content. unfold embedObject.
    destruct (truthyOpt content); [|by intros [= _ <-]].
    unfold bind. rewrite rewriteBody_lines.
    destruct (processLines _ _ _ _ _) as [[body st1]|] eqn:Hlines; [|done].
    assert (Hres : forall name s p s',
               identityMap s ->
               (fun name => parseObject fuel name false) name s = Some (p, s') ->
               identityMap s')
      by (intros name s p s'; apply Hnested).
    assert (identityMap st1)
      by exact (processLines_keeps identityMap identityMap_withPathMap _ Hres
                  _ _ _ (withLog st events) _ _ Hid Hlines).
    destruct (pushObject_cases (objectPathOf prefix f) body st1)
      as [[_ ->]|[_ ->]]; by intros [= _ <-]. }
  destruct result as [prefix f content|f|]; [apply Hembed..|].
  unfold bind.
  destruct (fetchLDrawValue_log (Path.parseName fileName)) as (lDrawId & Hfetch).
  destruct (Hfetch (withLog st events)) as (st1 & -> & [Hmap _]).
  intros Hrun. eapply Hnested; [|exact Hrun]. by eapply identityMap_pathMap.
Qed.

(** X9. A reference for which the cache answers costs no read and no
    lookup, whatever the resolver.  Answered by an own property, the
    line is written with the name as it stands in the line, trimmed and
    slash-normalised, and nothing changes.  Answered by a member that
    [pathMap] inherits from [Object.prototype] (a reference named
    [constructor] or [toString], say), the line is written with the
    text of that member in place of the name, and that text becomes a
    key of the cache. *)
Theorem cached_name_is_kept resolve line processed st :
  identityMap st ->
  truthy (snd (subobjectOf line)) = true ->
  cacheHit st (snd (subobjectOf line)) = true ->
  let name := snd (subobjectOf line) in
  let kept := JS.substringTo (fst (subobjectOf line)) line in
  match pathMap st !! name with
  | Some _ =>
      rewriteSubobject resolve line processed st
      = Some (processed +:+ kept +:+ name +:+ NL, st)
  | None =>
      exists text,
        objectPrototype name = Some text
        /\ rewriteSubobject resolve line processed st
           = Some (processed +:+ kept +:+ text +:+ NL, withPathMap st text text)
  end.
Proof.
  intros Hid Hname Hhit name kept. subst name kept. unfold rewriteSubobject.
  destruct (subobjectOf line) as [charIndex name]. simpl in *.
  rewrite Hname. unfold cacheHit, getPathMap in Hhit.
  unfold bind at 1. unfold cachedOrResolve, bind, getState, ret, getPathMap.
  destruct (pathMap st !! name) as [cached|] eqn:Hlook.
  - pose proof (Hid _ _ Hlook) as ->. simpl in Hhit. rewrite Hhit.
    rewrite setPathMap_assigned. do 2 f_equal. unfold assigned.
    destruct (String.eqb name "__proto__"); [done|].
    destruct st as [m ps cs us l]. unfold withPathMap. simpl in *. f_equal.
    by apply insert_id.
  - destruct (objectPrototype name) as [text|] eqn:Hproto; [|done].
    exists text. split; [done|].
    destruct (objectPrototype_text _ _ Hproto) as [Htext Hkey].
    rewrite Htext, setPathMap_assigned. unfold assigned. by rewrite Hkey.
Qed.

(** What a call for the root comes to: the search never takes the
    external branch, so the call either returns after the reads, or
    rewrites the lines and embeds the body. *)
Lemma parseObject_root_cases fuel fileName st path st' :
  parseObject (S fuel) fileName true st = Some (path, st') ->
  exists events,
    st' = withLog st events
    \/ exists lines body st1,
         processLines (fun name => parseObject fuel name false) lines 0 ""
           (withLog st events) = Some (body, st1)
         /\ pushObject path body st1 = Some (tt, st').
Proof.
  simpl. unfold bind at 1.
  destruct (search_log fileName true) as (result & events & Hsearch).
  rewrite Hsearch. intros Hrun. exists events. revert Hrun.
  assert (Hembed : forall prefix f content,
    embedObject (fun name => parseObject fuel name false) true prefix f content
      (withLog st events) = Some (path, st') ->
    st' = withLog st events
    \/ exists lines body st1,
         processLines (fun name => parseObject fuel name false) lines 0 ""
           (withLog st events) = Some (body, st1)
         /\ pushObject path body st1 = Some (tt, st')).
  { intros prefix f content. unfold embedObject.
    destruct (truthyOpt content); [|intros [= _ <-]; by left].
    unfold bind. rewrite rewriteBody_lines.
    destruct (processLines _ _ _ _ _) as [[body st1]|] eqn:Hlines; [|done].
    destruct (pushObject _ _ _) as [[[] st2]|] eqn:Hpush; [|done].
    intros [= <- <-]. right. by eexists _, _, _. }
  destruct result as [prefix f content|f|];
    [intros H; exact (Hembed _ _ _ H)..|].
  exfalso. specialize (Hsearch st). revert Hsearch. unfold search, bind.
  destruct (tryRead fileName st) as [[[p0 [c0|]] s0]|]; [done| |done].
  by destruct (tryRead _ s0) as [[[p1 [c1|]] s1]|].
Qed.


Lemma headedOutputs_sameOutputs st st' :
  sameOutputs st st' -> headedOutputs st -> headedOutputs st'.
Proof. intros [Hp Hc]. unfold headedOutputs. by rewrite Hp, Hc. Qed.

Lemma parseObject_keeps_headed fuel fileName st path st' :
  headedOutputs st ->
  parseObject fuel fileName false st = Some (path, st') ->
  headedOutputs st'.
Proof.
  apply (parseObject_keeps headedOutputs).
  - intros s key. by apply headedOutputs_sameOutputs.
  - intros s s' [_ Hsame]. by apply headedOutputs_sameOutputs.
  - intros s prefix f rest Hs. unfold headedOutputs, withObject. simpl.
    apply Forall2_app; [done|]. repeat constructor. by exists rest.
Qed.

(** X11. In the output sequences every body of a document other than
    the root starts with the boundary line that carries the path it is
    stored under: nested calls keep this, and the call for the root
    adds at most one body without such a line, its own, at the end. *)
Theorem embedded_bodies_are_headed fuel fileName isRoot st path st' :
  headedOutputs st ->
  parseObject fuel fileName isRoot st = Some (path, st') ->
  if isRoot
  then headedOutputs st'
       \/ exists paths contents body,
            Forall2 headed paths contents /\
            objectsPaths st' = paths ++ [path] /\
            objectsContents st' = contents ++ [body]
  else headedOutputs st'.
Proof.
  intros Hheaded. destruct isRoot; [|by apply parseObject_keeps_headed].
  destruct fuel as [|fuel]; [done|].
  intros (events & [->|(lines & body & st1 & Hlines & Hpush)])%parseObject_root_cases.
  - by left.
  - assert (Hres : forall name s p s',
               headedOutputs s ->
               (fun name => parseObject fuel name false) name s = Some (p, s') ->
               headedOutputs s')
      by (intros name s p s'; apply parseObject_keeps_headed).
    assert (Hst1 : headedOutputs st1).
    { refine (processLines_keeps headedOutputs _ _ Hres
                _ _ _ (withLog st events) _ _ Hheaded Hlines).
      intros s key. by apply headedOutputs_sameOutputs. }
    destruct (pushObject_cases path body st1) as [[_ E]|[_ E]];
      rewrite E in Hpush; injection Hpush as <-.
    + by left.
    + right. by exists (objectsPaths st1), (objectsContents st1), body.
Qed.

Lemma replaceBackslashes_noBackslash s :
  noBackslash (JS.replaceBackslashes s) = true.
Proof.
  unfold noBackslash, JS.replaceBackslashes.
  induction s as [|c r IH]; simpl; [done|]. rewrite IH.
  by destruct (Ascii.eqb c JS.BACKSLASH) eqn:E; [|rewrite E].
Qed.

Lemma parseObject_result_form fuel : forall fileName isRoot st path st',
  parseObject fuel fileName isRoot st = Some (path, st') ->
  exists prefix name, path = objectPathOf prefix name.
Proof.
  induction fuel as [|fuel IH]; intros fileName isRoot st path st'; [done|].
  simpl. unfold bind at 1.
  destruct (search fileName isRoot st) as [[[prefix f content|f|] s1]|]; [| | |done].
  - intros ->%embedObject_result. eauto.
  - intros ->%embedObject_result. eauto.
  - unfold bind. destruct (fetchLDrawValue _ _) as [[lDrawId s2]|]; [|done].
    apply IH.
Qed.

(** X12. No path that a call returns and no path in the output holds a
    backslash: every one went through the replacement of line 199. *)
Theorem resolved_paths_have_no_backslash fuel fileName isRoot st path st' :
  Forall (fun p => noBackslash p = true) (objectsPaths st) ->
  parseObject fuel fileName isRoot st = Some (path, st') ->
  noBackslash path = true
  /\ Forall (fun p => noBackslash p = true) (objectsPaths st').
Proof.
  intros Hst Hrun. split.
  { destruct (parseObject_result_form _ _ _ _ _ _ Hrun) as (prefix & f & ->).
    apply replaceBackslashes_noBackslash. }
  set (P := fun s : state => Forall (fun p => noBackslash p = true) (objectsPaths s)).
  assert (Hcache : forall s key, P s -> P (withPathMap s key key)) by done.
  assert (Hnested : forall fuel' name s p s',
             P s -> parseObject fuel' name false s = Some (p, s') -> P s').
  { intros fuel' name s p s'. apply (parseObject_keeps P); [done| |].
    - intros s1 s2 [_ [Hp _]]. unfold P. by rewrite Hp.
    - intros s1 prefix f rest Hs. unfold P, withObject. simpl.
      apply Forall_app. split; [done|]. repeat constructor.
      apply replaceBackslashes_noBackslash. }
  destruct isRoot; [|by eapply Hnested].
  destruct fuel as [|fuel]; [done|].
  pose proof (parseObject_result_form _ _ _ _ _ _ Hrun) as (prefix & f & ->).
  apply parseObject_root_cases in Hrun
    as (events & [->|(lines & body & st1 & Hlines & Hpush)]); [done|].
  assert (Hres : forall name s p s',
             P s -> (fun name => parseObject fuel name false) name s = Some (p, s') ->
             P s')
    by (intros name s p s'; apply Hnested).
  assert (Hst1 : P st1)
    by exact (processLines_keeps P Hcache _ Hres
                _ _ _ (withLog st events) _ _ Hst Hlines).
  destruct (pushObject_cases (objectPathOf prefix f) body st1) as [[_ E]|[_ E]];
    rewrite E in Hpush; injection Hpush as <-; [done|].
  simpl. apply Forall_app. split; [done|]. repeat constructor.
  apply replaceBackslashes_noBackslash.
Qed.

(** *** Whole documents and the output file *)

(** X13. A document all of whose lines are plain is resolved without
    any nested call, whatever fuel there is for them: after the reads
    of the search the call returns the path and, unless the path is
    embedded already, appends the path and the body, which is the
    boundary line (for a document other than the root) and then every
    line without its leading blanks, each with a line end. *)
Theorem plain_document_is_embedded fuel fileName (isRoot : bool) st i prefix path
    content :
  candidates fileName !! i = Some (prefix, path) ->
  readFileSync path = Some content ->
  (forall j c, j < i -> candidates fileName !! j = Some c ->
               readFileSync (snd c) = None) ->
  truthy content = true ->
  forallb isPlain (JS.split JS.LF (JS.replaceCRLF content)) = true ->
  let objectPath := objectPathOf prefix fileName in
  let body :=
    (if isRoot then "" else "0 FILE " +:+ objectPath +:+ NL)
    +:+ joinAll (map (fun l => skipLeadingBlanks l +:+ NL)
                   (JS.split JS.LF (JS.replaceCRLF content))) in
  let st1 :=
    withLog st (map (fun c => Read (snd c)) (take (S i) (candidates fileName))) in
  parseObject (S fuel) fileName isRoot st
  = Some (objectPath,
          if existsb (String.eqb objectPath) (objectsPaths st)
          then st1 else withObject st1 objectPath body).
Proof.
  intros Hi Hread Hbefore Htruthy Hplain objectPath body st1.
  simpl. unfold bind at 1.
  rewrite (search_first_pass _ isRoot _ _ _ _
             (tryRead_first_success _ st _ _ _ _ Hi Hread Hbefore)).
  unfold embedObject. simpl. rewrite Htruthy. unfold bind.
  rewrite rewriteBody_lines, processLines_plain by done.
  fold objectPath body st1. unfold pushObject, ret.
  change (objectsPaths st1) with (objectsPaths st).
  by destruct (existsb _ _).
Qed.

Lemma appendContents_prefix n : forall contents more packedContent,
  n <= length contents ->
  appendContents n (contents ++ more) packedContent
  = appendContents n contents packedContent.
Proof.
  induction n as [|n IH]; intros contents more packedContent Hn; simpl; [done|].
  rewrite app_nth1 by lia. apply IH. lia.
Qed.

(** The loop of lines 68-72 over as many indices as there are bodies. *)
Lemma appendContents_all contents : forall packedContent,
  appendContents (length contents) contents packedContent
  = packedContent +:+ joinAll (rev contents).
Proof.
  induction contents as [|body contents IH] using rev_ind; intros packedContent.
  - simpl. by rewrite app_empty_r.
  - rewrite length_app, Nat.add_comm. simpl.
    rewrite app_nth2 by lia. rewrite Nat.sub_diag. simpl.
    rewrite appendContents_prefix by lia.
    rewrite IH, rev_app_distr. simpl. by rewrite app_assoc_s.
Qed.

(** X14. A run that ends is rejected exactly when the materials file
    cannot be read, and then it reads nothing else, or when the write
    of the output file fails.  The write is attempted next to the model,
    under its name with [_Packed.mpd] added, with the materials, a line
    end, the bodies from the last embedded to the first, and a line
    end; there are as many bodies as paths, and no path twice. *)
Theorem packed_output_shape fuel fileName result st' :
  packLDrawModel fuel fileName initialState = Some (result, st') ->
  match readFileSync (Path.join [ldrawPath; materialsFileName]) with
  | None =>
      result = Rejected /\
      st' = withLog initialState [Read (Path.join [ldrawPath; materialsFileName])]
  | Some materialsContent =>
      let outPath := fileName +:+ "_Packed.mpd" in
      let packedContent :=
        materialsContent +:+ NL +:+ joinAll (rev (objectsContents st')) +:+ NL in
      result = (if writeFileSync outPath packedContent
                then Written outPath packedContent
                else Rejected)
      /\ outputsConsistent st'
  end.
Proof.
  unfold packLDrawModel. rewrite bind_readFile.
  destruct (readFileSync _) as [materialsContent|]; [|by intros [= <- <-]].
  unfold bind, getState, ret.
  destruct (parseObject fuel fileName true _) as [[path st1]|] eqn:Hrun; [|done].
  destruct (parseObject_advances _ _ _ _ _ _ Hrun) as (_ & _ & Hkeep).
  assert (Hcons : outputsConsistent st1)
    by (apply Hkeep; split; [constructor|reflexivity]).
  assert (Hcontent :
    appendContents (length (objectsPaths st1)) (objectsContents st1)
      (materialsContent +:+ NL) +:+ NL
    = materialsContent +:+ NL +:+ joinAll (rev (objectsContents st1)) +:+ NL).
  { destruct Hcons as [_ ->]. by rewrite appendContents_all, !app_assoc_s. }
  rewrite Hcontent.
  destruct (writeFileSync _ _) eqn:Hwrite; intros [= <- <-]; cbv zeta;
    by rewrite Hwrite.
Qed.

(** *** Lines of every shape *)

Lemma substringTo_substringFrom n : forall s,
  JS.substringTo n s +:+ JS.substringFrom n s = s.
Proof.
  induction n as [|n IH]; intros [|c r]; simpl; try done.
  by rewrite app_String, IH.
Qed.

Lemma skipTokens_ge n line : forall charIndex,
  charIndex <= skipTokens n line charIndex.
Proof.
  induction n as [|n IH]; intros charIndex; simpl; [done|].
  destruct (Nat.ltb _ _); [|done].
  etransitivity; [|apply IH]. lia.
Qed.

Lemma startsWith_app s p :
  JS.startsWith s p = true <-> exists t, s = p +:+ t.
Proof.
  revert s. induction p as [|a p IH]; intros s; simpl.
  - split; [by exists s|done].
  - destruct s as [|b s]; [split; [done|by intros [t Ht]]|].
    rewrite andb_true_iff, IH. split.
    + intros [->%Ascii.eqb_eq [t ->]]. by exists t.
    + intros [t Ht]. rewrite app_String in Ht. injection Ht as -> ->.
      split; [apply Ascii.eqb_refl|by exists t].
Qed.

(** X15. Of a subpart line, well formed or not, the output keeps a
    beginning that holds the token, and what is cut off is where the
    name comes from: either the line gives no name and nothing is
    written, or the output is that beginning, a path and a line end,
    and the path is a key of the cache afterwards, the one exception
    being the path [__proto__], a key that a plain object does not
    take. *)
Theorem subpart_line_keeps_a_beginning resolve i rawLine processed st body st' :
  let line := skipLeadingBlanks rawLine in
  JS.startsWith line "1 " = true ->
  processLine resolve i rawLine processed st = Some (body, st') ->
  exists kept rest,
    line = kept +:+ rest
    /\ JS.startsWith kept "1 " = true
    /\ snd (subobjectOf line) = JS.replaceBackslashes (JS.trim rest)
    /\ ((truthy (snd (subobjectOf line)) = false /\ body = processed /\ st' = st)
        \/ exists path,
             body = processed +:+ kept +:+ path +:+ NL
             /\ (path <> "__proto__" -> pathMap st' !! path = Some path)).
Proof.
  intros line Hsub. unfold processLine. fold line.
  assert (Hfile : JS.startsWith line "0 FILE " = false).
  { destruct (JS.startsWith line "0 FILE ") eqn:E; [|done].
    apply startsWith_file_not_subobject in E. congruence. }
  rewrite Hfile, Hsub. cbn [andb]. unfold bind at 1. unfold ret at 1.
  unfold rewriteSubobject, subobjectOf.
  set (charIndex := skipTokens 13 line 2). intros Hrun.
  exists (JS.substringTo charIndex line), (JS.substringFrom charIndex line).
  assert (Hkept : JS.startsWith (JS.substringTo charIndex line) "1 " = true).
  { pose proof (skipTokens_ge 13 line 2) as Hge. fold charIndex in Hge.
    apply startsWith_app in Hsub as [t Ht]. rewrite Ht.
    destruct charIndex as [|[|n]]; [lia..|]. reflexivity. }
  revert Hrun. simpl snd.
  destruct (truthy _) eqn:Hname.
  - unfold bind.
    destruct (cachedOrResolve _ _ _) as [[path s1]|]; [|done].
    rewrite setPathMap_assigned. unfold ret. intros [= <- <-].
    split_and!; [by rewrite substringTo_substringFrom|done|done|].
    right. exists path. split; [done|]. intros Hpath%String.eqb_neq.
    unfold assigned. rewrite Hpath. simpl. apply lookup_insert_eq.
  - unfold ret. intros [= <- <-].
    split_and!; [by rewrite substringTo_substringFrom|done|done|].
    by left.
Qed.

Lemma dropWhile_app_stop f b c a :
  f c = false ->
  exists x, JS.dropWhile f (b +:+ String c a) = x +:+ String c a.
Proof.
  intros Hc. induction b as [|d b IH].
  - exists "". rewrite !app_empty_l. simpl. by rewrite Hc.
  - rewrite app_String. simpl. destruct (f d).
    + exact IH.
    + exists (String d b). by rewrite app_String.
Qed.

Lemma mapChars_app f a b :
  JS.mapChars f (a +:+ b) = JS.mapChars f a +:+ JS.mapChars f b.
Proof.
  induction a as [|c a IH]; [done|].
  rewrite app_String. simpl. by rewrite IH.
Qed.

(** Trimming and slash-normalising a directive leaves its token. *)
Lemma directive_key t :
  exists y, JS.replaceBackslashes (JS.trim ("0 FILE" +:+ t)) = "0 FILE" +:+ y.
Proof.
  unfold JS.trim.
  change (JS.dropWhile JS.isTrimSpace ("0 FILE" +:+ t)) with ("0 FILE" +:+ t).
  rewrite rev_app_s.
  change (String.rev "0 FILE") with (String "E" "LIF 0").
  destruct (dropWhile_app_stop JS.isTrimSpace (String.rev t) "E" "LIF 0" eq_refl)
    as [x ->].
  rewrite rev_app_s.
  change (String.rev (String "E" "LIF 0")) with "0 FILE".
  unfold JS.replaceBackslashes. rewrite mapChars_app.
  by eexists.
Qed.

(** X16. A file-boundary directive on a line other than the first is
    written to the body like a plain line, resolves nothing, and enters
    the cache under the text of the whole line, token included: the
    answers of the cache for names that do not begin with the token,
    the name of the embedded file among them, stay what they were. *)
Theorem later_directive_is_cached_whole resolve i rawLine processed st :
  let line := skipLeadingBlanks rawLine in
  let key := JS.replaceBackslashes (JS.trim line) in
  let st' := if cacheHit st key then st else withPathMap st key key in
  JS.startsWith line "0 FILE " = true ->
  processLine resolve (S i) rawLine processed st
  = Some (processed +:+ line +:+ NL, st')
  /\ JS.startsWith key "0 FILE" = true
  /\ cacheHit st' key = true
  /\ (forall name, JS.startsWith name "0 FILE" = false ->
                   cacheHit st' name = cacheHit st name).
Proof.
  intros line key st' Hfile.
  assert (Hkey : exists y, key = "0 FILE" +:+ y).
  { apply startsWith_app in Hfile as [t Ht]. unfold key. rewrite Ht.
    change ("0 FILE " +:+ t) with ("0 FILE" +:+ String " " t).
    apply directive_key. }
  destruct Hkey as [y Hkey].
  assert (Hstart : JS.startsWith key "0 FILE" = true)
    by (apply startsWith_app; by exists y).
  assert (Htruthy : truthy key = true) by by rewrite Hkey.
  assert (Hproto : String.eqb key "__proto__" = false) by by rewrite Hkey.
  assert (Hown : getPathMap st key = pathMap st !! key).
  { unfold getPathMap. destruct (pathMap st !! key); [done|]. by rewrite Hkey. }
  split_and!.
  - unfold processLine. fold line. rewrite Hfile.
    rewrite (startsWith_file_not_subobject _ Hfile). cbn [Nat.eqb andb].
    unfold noteFileDirective, getState.
    change (JS.substringFrom 0 line) with line. fold key.
    rewrite Htruthy. unfold bind, ret, st', cacheHit. cbv beta.
    destruct (truthyOpt (getPathMap st key)); [done|].
    rewrite setPathMap_assigned. unfold assigned. by rewrite Hproto.
  - done.
  - unfold st'. destruct (cacheHit st key) eqn:Hhit; [done|].
    unfold cacheHit, getPathMap, withPathMap. simpl. by rewrite lookup_insert_eq.
  - intros name Hname. unfold st'. destruct (cacheHit st key); [done|].
    unfold cacheHit, getPathMap, withPathMap. simpl.
    rewrite lookup_insert_ne; [done|]. intros <-. congruence.
Qed.

End Packer.

(** ** Runs on the fixtures *)

Lemma candidate_priority_witness :
  search Fixture.library "3001.dat" false initialState
  = Some (Found "parts/" "3001.dat" "0 brick",
          withLog initialState [Read "3001.dat"; Read "parts/3001.dat"])
  /\ Fixture.library "models/3001.dat" = Some "0 copy".
Proof.
  split; [|reflexivity].
  assert (Hbefore : forall j c, j < 1 -> candidates "3001.dat" !! j = Some c ->
                                Fixture.library (snd c) = None).
  { intros [|j] c Hj Hc; [|lia]. by injection Hc as <-. }
  destruct (candidate_priority Fixture.library "3001.dat" false initialState 1
              "parts/" "parts/3001.dat" "0 brick" eq_refl eq_refl Hbefore)
    as (_ & _ & Hsearch & _).
  exact Hsearch.
Defined.

(** A brick that can be read under [parts/] and under [models/], and
    in the library directory itself: it resolves to neither of the
    two. *)
Lemma root_relative_wins_counterexample :
  Shelf.library "parts/3001.dat" = Some "0 brick"
  /\ Shelf.library "models/3001.dat" = Some "0 copy"
  /\ search Shelf.library "3001.dat" false initialState
     = Some (Found "" "3001.dat" "0 stray", withLog initialState [Read "3001.dat"])
  /\ option_map fst
       (parseObject Shelf.library Fixture.noService 1 "3001.dat" false initialState)
     = Some "3001.dat"
  /\ option_map (fun r => objectsPaths (snd r))
       (parseObject Shelf.library Fixture.noService 1 "3001.dat" false initialState)
     = Some ["3001.dat"].
Proof. by split_and!. Qed.

Lemma special_prefix_location_not_read_witness :
  parseObject Fixture.library Fixture.noService 1 "48/1-4cyli.dat" false initialState
  = Some ("p/48/1-4cyli.dat",
          withObject (withLog initialState [Read "48/1-4cyli.dat"])
            "p/48/1-4cyli.dat"
            ("0 FILE p/48/1-4cyli.dat" +:+ NL +:+ "0 cylinder" +:+ NL))
  /\ Path.join [ldrawPath; "p/"; "48/1-4cyli.dat"] = "p/48/1-4cyli.dat"
  /\ Fixture.library "p/48/1-4cyli.dat" = None.
Proof.
  split; [|by split].
  destruct (special_prefix_location_not_read Fixture.library Fixture.noService
              "48/1-4cyli.dat" "0 cylinder" initialState (or_introl eq_refl) eq_refl)
    as (_ & _ & _ & _ & _ & Hplain & _).
  exact (Hplain 0 false eq_refl eq_refl).
Defined.



Lemma fallback_without_digits_is_null_dat_witness :
  parseObject Shelf.library Fixture.noService 2 "sticker.dat" false initialState
  = Some ("parts/null.dat",
          mkState ∅ ["parts/null.dat"]
            ["0 FILE parts/null.dat" +:+ NL +:+ "0 nothing" +:+ NL]
            ["sticker"]
            (exhaustedReads "sticker.dat"
               ++ [Fetch (url +:+ "sticker"); Fetch (url +:+ "sticker");
                   Read "null.dat"; Read "parts/null.dat"])).
Proof.
  destruct (fallback_without_digits_is_null_dat Shelf.library Fixture.noService
              0 "sticker.dat" initialState)
    as (_ & _ & _ & _ & _ & _ & Hrun);
    [by apply locallyMissing_check|reflexivity|reflexivity|reflexivity|reflexivity|].
  apply (Hrun 1 "parts/" "0 nothing").
  exists "parts/null.dat". split_and!; try reflexivity.
  intros [|j] c Hj Hc; [|lia]. by injection Hc as <-.
Defined.

Lemma root_not_found_still_writes_witness :
  packLDrawModel Fixture.library Fixture.noService Fixture.writeInModels 1
    "models/Missing.ldr" initialState
  = Some (Written "models/Missing.ldr_Packed.mpd" ("0 colours" +:+ NL +:+ NL),
          withLog initialState
            (Read "LDConfig.ldr" :: exhaustedReads "models/Missing.ldr")).
Proof.
  destruct (root_not_found_still_writes Fixture.library Fixture.noService
              Fixture.writeInModels 0 "models/Missing.ldr" "0 colours")
    as (_ & _ & _ & Hrun);
    [by apply locallyMissing_check|reflexivity|].
  exact Hrun.
Defined.

(** No candidate location of the root can be read, the directory of
    the model exists, and the output file is written all the same. *)
Lemma root_not_found_counterexample :
  Forall (fun c => Fixture.library (snd c) = None)
    (candidates "models/Missing.ldr" ++ candidates (JS.toLowerCase "models/Missing.ldr"))
  /\ Fixture.library "models/car.ldr" <> None
  /\ option_map fst
       (packLDrawModel Fixture.library Fixture.noService Fixture.writeInModels 1
          "models/Missing.ldr" initialState)
     = Some (Written "models/Missing.ldr_Packed.mpd" ("0 colours" +:+ NL +:+ NL)).
Proof.
  split_and!; [|done|reflexivity].
  repeat constructor.
Qed.

(** C1 (the code at the failing input). The brick [3001.dat] is
    referenced by the two submodels of the fixture: its file is read
    twice, once for each reference, and embedded once. *)
Lemma shared_part_is_read_twice :
  let run := packLDrawModel Fixture.library Fixture.noService
               Fixture.writeInModels 3 "models/car.ldr" initialState in
  option_map (fun r => readsOf "parts/3001.dat" (log (snd r))) run = Some 2
  /\ option_map (fun r => objectsPaths (snd r)) run
     = Some ["parts/3001.dat"; "models/a.ldr"; "models/b.ldr"; "models/car.ldr"]
  /\ option_map (fun r => objectsContents (snd r) !! 1) run
     = Some (Some ("0 FILE models/a.ldr" +:+ NL
                     +:+ Fixture.refLine "parts/3001.dat" +:+ NL))
  /\ option_map (fun r => objectsContents (snd r) !! 2) run
     = Some (Some ("0 FILE models/b.ldr" +:+ NL
                     +:+ Fixture.refLine "parts/3001.dat" +:+ NL)).
Proof. vm_compute. by split_and!. Qed.

Lemma subpart_line_fields_witness :
  processLine Fixture.resolveInParts 1 (Fixture.refLine "3001.dat") "" initialState
  = Some (Fixture.refLine "parts/3001.dat" +:+ NL,
          withPathMap initialState "parts/3001.dat" "parts/3001.dat").
Proof.
  destruct (subpart_line_fields Fixture.resolveInParts 1 "" Fixture.refFields
              "3001.dat" "" initialState eq_refl eq_refl eq_refl) as [Hfull _].
  destruct (Hfull eq_refl) as (_ & _ & Hrun & _).
  exact (Hrun eq_refl).
Defined.

(** A subpart line of four fields: it is not passed through, the body
    does not get it at all. *)
Lemma short_subpart_line_counterexample :
  subobjectOf "1 16 0 0 0" = (10, "")
  /\ processLine Fixture.resolveNothing 1 "1 16 0 0 0" "" initialState
     = Some ("", initialState)
  /\ option_map fst
       (rewriteBody Fixture.resolveNothing true "models/short.ldr"
          ("0 head" +:+ NL +:+ "1 16 0 0 0" +:+ NL +:+ "0 tail") initialState)
     = Some ("0 head" +:+ NL +:+ "0 tail" +:+ NL).
Proof. by split_and!. Qed.

Lemma boundary_lines_witness :
  processLines Fixture.resolveNothing ["  0 FILE car.ldr"; "0 hello"] 0 "" initialState
  = processLines Fixture.resolveNothing ["0 hello"] 1 "" initialState.
Proof.
  apply (boundary_lines Fixture.resolveNothing "models/car.ldr" "" initialState).
  reflexivity.
Defined.





(** ** Runs on the sample fixtures *)

Lemma first_lookup_settles_witness :
  fetchLDrawValue Sample.service "3001bpb01" initialState
  = Some (Some "3001p01", withLog initialState [Fetch (url +:+ "3001pb01")]).
Proof.
  apply (first_lookup_settles Sample.service "3001bpb01" initialState).
  reflexivity.
Defined.

Lemma lookup_hit_resolves_identifier_witness :
  parseObject Sample.library Sample.service 2 "3001bpb01.dat" false initialState
  = Some ("parts/3001p01.dat",
          mkState ∅ ["parts/3001p01.dat"]
            ["0 FILE parts/3001p01.dat" +:+ NL +:+ "0 printed brick" +:+ NL]
            []
            (exhaustedReads "3001bpb01.dat"
               ++ [Fetch (url +:+ "3001pb01");
                   Read "3001p01.dat"; Read "parts/3001p01.dat"])).
Proof.
  destruct (lookup_hit_resolves_identifier Sample.library Sample.service
              0 "3001bpb01.dat" initialState "3001p01")
    as (_ & _ & _ & _ & _ & Hrun);
    [by apply locallyMissing_check|reflexivity|by left|reflexivity|].
  apply (Hrun 1 "parts/" "0 printed brick").
  exists "parts/3001p01.dat". split_and!; try reflexivity.
  intros [|j] c Hj Hc; [|lia]. by injection Hc as <-.
Defined.

Lemma missing_without_extension_returns_witness :
  parseObject Fixture.onlyMaterials Fixture.noService 1 "3001.DAT" false initialState
  = Some ("3001.dat", withLog initialState (exhaustedReads "3001.DAT")).
Proof.
  apply (missing_without_extension_returns Fixture.onlyMaterials Fixture.noService
           0 "3001.DAT" initialState).
  - by apply locallyMissing_check.
  - reflexivity.
Defined.

Lemma empty_file_is_not_embedded_witness :
  parseObject Sample.library Sample.service 1 "empty.dat" false initialState
  = Some ("parts/empty.dat",
          withLog initialState [Read "empty.dat"; Read "parts/empty.dat"]).
Proof.
  apply (empty_file_is_not_embedded Sample.library Sample.service 0 "empty.dat"
           false initialState 1 "parts/" "parts/empty.dat" eq_refl eq_refl).
  intros [|j] c Hj Hc; [|lia]. by injection Hc as <-.
Defined.

Lemma own_default_never_returns_witness :
  parseObject Fixture.library Fixture.noService 1000 "null.dat" false initialState
  = None.
Proof.
  apply (own_default_never_returns Fixture.library Fixture.noService "null.dat").
  - by apply locallyMissing_check.
  - reflexivity.
  - reflexivity.
  - reflexivity.
  - reflexivity.
Defined.

Lemma cache_is_identity_witness :
  match parseObject Shelf.inherited Fixture.noService 2 "models/odd.ldr" true
          initialState with
  | Some (_, st') =>
      identityMap st'
      /\ (forall name answer,
            getPathMap st' name = Some answer ->
            answer = name
            \/ (pathMap st' !! name = None /\ objectPrototype name = Some answer))
  | None => False
  end.
Proof.
  destruct (parseObject Shelf.inherited Fixture.noService 2 "models/odd.ldr" true
              initialState) as [[objectPath st']|] eqn:Hrun;
    [|vm_compute in Hrun; discriminate].
  apply (cache_is_identity Shelf.inherited Fixture.noService 2 "models/odd.ldr"
           true initialState objectPath st' identityMap_initial Hrun).
Defined.

Lemma cached_name_is_kept_witness :
  exists text,
    objectPrototype "constructor" = Some text
    /\ rewriteSubobject Fixture.resolveNothing (Fixture.refLine "constructor") ""
         initialState
       = Some (Fixture.refLine text +:+ NL, withPathMap initialState text text).
Proof.
  apply (cached_name_is_kept Fixture.resolveNothing
           (Fixture.refLine "constructor") "" initialState).
  - apply identityMap_initial.
  - reflexivity.
  - reflexivity.
Defined.


Lemma embedded_bodies_are_headed_witness :
  match parseObject Fixture.library Fixture.noService 2 "a.ldr" false
          initialState with
  | Some (_, st') => headedOutputs st'
  | None => False
  end.
Proof.
  destruct (parseObject Fixture.library Fixture.noService 2 "a.ldr" false
              initialState) as [[objectPath st']|] eqn:Hrun;
    [|vm_compute in Hrun; discriminate].
  apply (embedded_bodies_are_headed Fixture.library Fixture.noService 2 "a.ldr"
           false initialState objectPath st'); [|exact Hrun].
  constructor.
Defined.

Lemma resolved_paths_have_no_backslash_witness :
  parseObject Fixture.onlyMaterials Fixture.noService 1 "models\Car.ldr" true
    initialState
  = Some ("models/car.ldr", withLog initialState (exhaustedReads "models\Car.ldr"))
  /\ noBackslash "models/car.ldr" = true.
Proof.
  split; [reflexivity|].
  apply (resolved_paths_have_no_backslash Fixture.onlyMaterials Fixture.noService
           1 "models\Car.ldr" true initialState "models/car.ldr"
           (withLog initialState (exhaustedReads "models\Car.ldr"))).
  - constructor.
  - reflexivity.
Defined.

Lemma plain_document_is_embedded_witness :
  parseObject Sample.library Sample.service 1 "stud.dat" false initialState
  = Some ("p/stud.dat",
          withObject
            (withLog initialState
               [Read "stud.dat"; Read "parts/stud.dat"; Read "p/stud.dat"])
            "p/stud.dat"
            ("0 FILE p/stud.dat" +:+ NL +:+ "0 Stud" +:+ NL
               +:+ "4 16 0 0 0" +:+ NL +:+ NL)).
Proof.
  apply (plain_document_is_embedded Sample.library Sample.service 0 "stud.dat"
           false initialState 2 "p/" "p/stud.dat" _ eq_refl eq_refl).
  - intros [|[|j]] c Hj Hc; [| |lia]; by injection Hc as <-.
  - reflexivity.
  - reflexivity.
Defined.

Lemma packed_output_shape_witness :
  match packLDrawModel Fixture.library Fixture.noService Fixture.writeInModels
          3 "models/car.ldr" initialState with
  | Some (result, st') =>
      result = Written "models/car.ldr_Packed.mpd"
                 ("0 colours" +:+ NL +:+ joinAll (rev (objectsContents st')) +:+ NL)
      /\ outputsConsistent st'
  | None => False
  end.
Proof.
  destruct (packLDrawModel Fixture.library Fixture.noService Fixture.writeInModels
              3 "models/car.ldr" initialState) as [[result st']|] eqn:Hrun;
    [|vm_compute in Hrun; discriminate].
  exact (packed_output_shape Fixture.library Fixture.noService
           Fixture.writeInModels 3 "models/car.ldr" result st' Hrun).
Defined.

Lemma subpart_line_keeps_a_beginning_witness :
  exists kept rest,
    "1  16 0 0 0 1 0 0 0 1 0 0 0 1 3001.dat" = kept +:+ rest
    /\ JS.startsWith kept "1 " = true
    /\ snd (subobjectOf "1  16 0 0 0 1 0 0 0 1 0 0 0 1 3001.dat")
       = JS.replaceBackslashes (JS.trim rest)
    /\ ((truthy (snd (subobjectOf "1  16 0 0 0 1 0 0 0 1 0 0 0 1 3001.dat")) = false
         /\ "1  16 0 0 0 1 0 0 0 1 0 0 0 parts/1 3001.dat" +:+ NL = ""
         /\ withPathMap initialState "parts/1 3001.dat" "parts/1 3001.dat"
            = initialState)
        \/ exists path,
             "1  16 0 0 0 1 0 0 0 1 0 0 0 parts/1 3001.dat" +:+ NL
             = "" +:+ kept +:+ path +:+ NL
             /\ (path <> "__proto__" ->
                 pathMap (withPathMap initialState "parts/1 3001.dat"
                            "parts/1 3001.dat") !! path = Some path)).
Proof.
  apply (subpart_line_keeps_a_beginning Fixture.resolveInParts 1
           "  1  16 0 0 0 1 0 0 0 1 0 0 0 1 3001.dat" "" initialState).
  - reflexivity.
  - reflexivity.
Defined.

Lemma later_directive_is_cached_whole_witness :
  processLine Fixture.resolveNothing 1 "0 FILE sub.ldr " "" initialState
  = Some ("0 FILE sub.ldr " +:+ NL,
          withPathMap initialState "0 FILE sub.ldr" "0 FILE sub.ldr").
Proof.
  apply (later_directive_is_cached_whole Fixture.resolveNothing 0
           "0 FILE sub.ldr " "" initialState).
  reflexivity.
Defined.
